(** * jest-github-action: the result-to-report pipeline of [src/action.ts]

    The action runs jest, reads the JSON results document, and republishes
    it as a check run (with one annotation per failed assertion) and, when
    asked to, as a coverage comment on the pull request.

    This development embeds the functions of [action.ts] as Rocq functions
    and proves what they compute.  The npm packages the file imports are
    not part of the repository: the embedding is parametric in
    [strip-ansi], [markdown-table] and the octokit client, with small
    stand-ins used only to run the functions on examples, and it takes
    from [istanbul-lib-coverage] what [createCoverageMap] accepts and what
    it refuses. *)

From Stdlib Require Import ZArith String Ascii List Bool Lia.
From Stdlib Require Import DecimalString DecimalZ.
Import ListNotations.

Local Open Scope string_scope.
Local Open Scope Z_scope.

(** ** JavaScript strings and the built-ins the action calls

    A JavaScript string is modelled as a Rocq [string], one character per
    code unit in the range U+0000..U+00FF. *)

Module JS.

Definition LF : string := String "010"%char EmptyString.
Definition DQUOTE : string := String (ascii_of_nat 34) EmptyString.

(** [Number.prototype.toString] on an integer-valued number. *)
Definition toString (n : Z) : string := NilEmpty.string_of_int (Z.to_int n).

(** [String.prototype.startsWith]. *)
Definition startsWith (s searchString : string) : bool :=
  String.prefix searchString s.

(** [Array.prototype.join]. *)
Definition join (sep : string) (xs : list string) : string :=
  String.concat sep xs.

(** Truthiness of a string: every string but the empty one. *)
Definition truthy (s : string) : bool :=
  match s with
  | EmptyString => false
  | String _ _ => true
  end.

Fixpoint drop (n : nat) (s : string) : string :=
  match n, s with
  | O, _ => s
  | S _, EmptyString => EmptyString
  | S n', String _ s' => drop n' s'
  end.

(** The first occurrence of [pat] in [s]: what precedes it and what
    follows it ([String.prototype.indexOf], then slicing). *)
Fixpoint split_at_first (pat s : string) : option (string * string) :=
  if String.prefix pat s then Some (EmptyString, drop (String.length pat) s)
  else
    match s with
    | EmptyString => None
    | String c s' =>
        match split_at_first pat s' with
        | Some (before, after) => Some (String c before, after)
        | None => None
        end
    end.

(** [GetSubstitution] of ECMA-262 for a string pattern: there are no
    captures, so only the dollar-dollar, dollar-ampersand,
    dollar-backquote and dollar-quote forms are expanded. *)
Fixpoint GetSubstitution (matched before after template : string) : string :=
  match template with
  | EmptyString => EmptyString
  | String c r =>
      if Ascii.eqb c "$"%char then
        match r with
        | EmptyString => String c EmptyString
        | String d r' =>
            if Ascii.eqb d "$"%char then
              String "$"%char (GetSubstitution matched before after r')
            else if Ascii.eqb d "&"%char then
              matched ++ GetSubstitution matched before after r'
            else if Ascii.eqb d "`"%char then
              before ++ GetSubstitution matched before after r'
            else if Ascii.eqb d "'"%char then
              after ++ GetSubstitution matched before after r'
            else String c (GetSubstitution matched before after r)
        end
      else String c (GetSubstitution matched before after r)
  end.

(** [String.prototype.replace] with a string pattern: the first
    occurrence only. *)
Definition replace (s pat replacement : string) : string :=
  match split_at_first pat s with
  | None => s
  | Some (before, after) =>
      before ++ GetSubstitution pat before after replacement ++ after
  end.

(** White space and line terminators of ECMA-262 below U+0100. *)
Definition isWhiteSpace (c : ascii) : bool :=
  let n := nat_of_ascii c in
  (Nat.leb 9 n && Nat.leb n 13) || Nat.eqb n 32 || Nat.eqb n 160.

(** [String.prototype.trimRight]. *)
Fixpoint trimRight (s : string) : string :=
  match s with
  | EmptyString => EmptyString
  | String c s' =>
      match trimRight s' with
      | EmptyString => if isWhiteSpace c then EmptyString else String c EmptyString
      | String _ _ as t => String c t
      end
  end.

Fixpoint allWhiteSpace (s : string) : bool :=
  match s with
  | EmptyString => true
  | String c s' => isWhiteSpace c && allWhiteSpace s'
  end.

(** [s] does not end in white space. *)
Fixpoint endsClean (s : string) : bool :=
  match s with
  | EmptyString => true
  | String c EmptyString => negb (isWhiteSpace c)
  | String _ s' => endsClean s'
  end.

End JS.

(** A value of type [string | false]. *)
Inductive StringOrFalse : Type :=
| JsFalse
| JsString (s : string).

Definition truthyResult (v : StringOrFalse) : bool :=
  match v with
  | JsFalse => false
  | JsString s => JS.truthy s
  end.

(** ** The results document ([FormattedTestResults] of jest) *)

Record Callsite : Type := { column : Z; line : Z }.

Record AssertionResult : Type := {
  status : string;
  ancestorTitles : list string;
  title : string;
  location : option Callsite;
  failureMessages : option (list string)
}.

Record TestResult : Type := {
  name : string;
  message : string;
  assertionResults : list AssertionResult
}.

(** One annotation of the check run. *)
Record Annotation : Type := {
  path : string;
  start_line : Z;
  end_line : Z;
  annotation_level : string;
  ann_title : string;
  ann_message : string
}.

Record Output : Type := {
  out_title : string;
  text : option string;
  summary : string;
  annotations : list Annotation
}.

Record Repo : Type := { owner : string; repo : string }.

Record CheckPayload : Type := {
  check_repo : Repo;
  head_sha : string;
  check_name : string;
  check_status : option string;
  conclusion : option string;
  output : Output
}.

Record CommentPayload : Type := {
  comment_repo : Repo;
  body : string;
  issue_number : Z
}.

(** [github.context], as far as the action reads it. *)
Record PullRequest : Type := {
  number : Z;
  pr_head_sha : string;
  base_ref : string
}.

Record Context : Type := {
  context_repo : Repo;
  sha : string;
  pull_request : option PullRequest
}.

Definition COVERAGE_HEADER : string :=
  ":loop: **Code coverage**" ++ JS.LF ++ JS.LF.

Definition getPullId (ctx : Context) : Z :=
  match pull_request ctx with
  | Some pr => number pr
  | None => 0
  end.

Definition getSha (ctx : Context) : string :=
  match pull_request ctx with
  | Some pr => pr_head_sha pr
  | None => sha ctx
  end.

Definition getCommentPayload (ctx : Context) (body : string) : CommentPayload :=
  {| comment_repo := context_repo ctx;
     body := body;
     issue_number := getPullId ctx |}.

Definition asMarkdownCode (str : string) : string :=
  "```" ++ JS.LF ++ JS.trimRight str ++ JS.LF ++ "```".

(** ** Coverage data

    The results document holds the raw coverage map, a [CoverageMapData]:
    the list of its [Object.entries], in iteration order.  An entry is file
    coverage data, taken here with the summary that istanbul-lib-coverage
    computes from it, or something else, which the constructor of
    [FileCoverage] refuses with a complaint.  A [CoverageMap] is the list
    of entries of the map that [createCoverageMap] builds; [toSummary] is
    [None] where the action finds [data.toSummary == null].  The
    percentages are JavaScript numbers of the coverage tool: their type is
    a parameter. *)

Record Totals (Pct : Type) : Type := { pct : Pct }.

Record CoverageSummaryData (Pct : Type) : Type := {
  statements : Totals Pct;
  branches : Totals Pct;
  functions : Totals Pct;
  lines : Totals Pct
}.

Record FileCoverage (Pct : Type) : Type := {
  toSummary : option (CoverageSummaryData Pct)
}.

Definition CoverageMap (Pct : Type) : Type := list (string * FileCoverage Pct).

Inductive CoverageEntry (Pct : Type) : Type :=
| FileCoverageData (summary : CoverageSummaryData Pct)
| NotFileCoverage (complaint : string).

Definition CoverageMapData (Pct : Type) : Type :=
  list (string * CoverageEntry Pct).

Record FormattedTestResults (Pct : Type) : Type := {
  success : bool;
  numTotalTests : Z;
  numPassedTests : Z;
  numFailedTests : Z;
  numTotalTestSuites : Z;
  numPassedTestSuites : Z;
  numFailedTestSuites : Z;
  testResults : list TestResult;
  coverageMap : option (CoverageMapData Pct)
}.

Arguments pct {Pct} _.
Arguments statements {Pct} _.
Arguments branches {Pct} _.
Arguments functions {Pct} _.
Arguments lines {Pct} _.
Arguments toSummary {Pct} _.
Arguments FileCoverageData {Pct} summary.
Arguments NotFileCoverage {Pct} complaint.
Arguments success {Pct} _.
Arguments numTotalTests {Pct} _.
Arguments numPassedTests {Pct} _.
Arguments numFailedTests {Pct} _.
Arguments numTotalTestSuites {Pct} _.
Arguments numPassedTestSuites {Pct} _.
Arguments numFailedTestSuites {Pct} _.
Arguments testResults {Pct} _.
Arguments coverageMap {Pct} _.

(** ** Results of fallible steps *)

Inductive Err (A : Type) : Type :=
| Ok (a : A)
| Throw (msg : string).

Arguments Ok {A} a.
Arguments Throw {A} msg.

(** [createCoverageMap] of istanbul-lib-coverage: every entry, in order,
    becomes a [FileCoverage], which has [toSummary]; the first entry that
    is not file coverage data makes the call throw. *)
Fixpoint createCoverageMap {Pct} (data : CoverageMapData Pct)
    : Err (CoverageMap Pct) :=
  match data with
  | [] => Ok []
  | (filename, NotFileCoverage complaint) :: _ => Throw complaint
  | (filename, FileCoverageData summary) :: rest =>
      match createCoverageMap rest with
      | Ok covMap => Ok ((filename, {| toSummary := Some summary |}) :: covMap)
      | Throw msg => Throw msg
      end
  end.

(** ** The process environment

    What the action reads from [process], from [core.getInput], from
    [github.context] and from the results file.  [coverage_comment] and
    [changes_only] are the outcomes of [Boolean(JSON.parse(...))] on the
    two inputs, [results_document] the outcome of reading and parsing the
    results file, [RESULTS_FILE] the path that [join] of node returns. *)

Record Env (Pct : Type) : Type := {
  process_cwd : string;
  sep : string;
  RESULTS_FILE : string;
  env_GITHUB_TOKEN : option string;
  input_GITHUB_TOKEN : string;
  input_test_command : string;
  input_command_name : string;
  coverage_comment : Err bool;
  changes_only : Err bool;
  context : Context;
  results_document : Err (FormattedTestResults Pct)
}.

Arguments process_cwd {Pct} _.
Arguments sep {Pct} _.
Arguments RESULTS_FILE {Pct} _.
Arguments env_GITHUB_TOKEN {Pct} _.
Arguments input_GITHUB_TOKEN {Pct} _.
Arguments input_test_command {Pct} _.
Arguments input_command_name {Pct} _.
Arguments coverage_comment {Pct} _.
Arguments changes_only {Pct} _.
Arguments context {Pct} _.
Arguments results_document {Pct} _.

(** ** The platform client

    A comment as [issues.listComments] returns it, the requests the action
    sends, and the client as a record of handlers over a platform state. *)

Record IssueComment : Type := {
  id : Z;
  user_login : string;
  comment_body : string
}.

Inductive Request : Type :=
| ChecksCreate (p : CheckPayload)
| IssuesListComments (r : Repo) (per_page : Z) (issue : Z)
| IssuesDeleteComment (r : Repo) (comment_id : Z)
| IssuesCreateComment (p : CommentPayload).

Record Octokit (P : Type) : Type := {
  checks_create : CheckPayload -> P -> Err unit * P;
  issues_listComments : Repo -> Z -> Z -> P -> Err (list IssueComment) * P;
  issues_deleteComment : Repo -> Z -> P -> Err unit * P;
  issues_createComment : CommentPayload -> P -> Err unit * P
}.

Arguments checks_create {P} _ _ _.
Arguments issues_listComments {P} _ _ _ _ _.
Arguments issues_deleteComment {P} _ _ _ _.
Arguments issues_createComment {P} _ _ _.

Definition isCommentRequest (q : Request) : bool :=
  match q with
  | ChecksCreate _ => false
  | _ => true
  end.

(** An asynchronous step of the action: it may throw, it may change the
    platform, and it appends the requests it sends to the log. *)
Module Async.

Definition t (P A : Type) : Type :=
  P * list Request -> Err A * (P * list Request).

Definition ret {P A} (a : A) : t P A := fun st => (Ok a, st).

Definition bind {P A B} (m : t P A) (k : A -> t P B) : t P B :=
  fun st =>
    match m st with
    | (Ok a, st') => k a st'
    | (Throw msg, st') => (Throw msg, st')
    end.

Definition lift {P A} (e : Err A) : t P A := fun st => (e, st).

(** Send [q]; the platform answers through [handler]. *)
Definition send {P A} (q : Request) (handler : P -> Err A * P) : t P A :=
  fun st =>
    let '(r, p') := handler (fst st) in
    (r, (p', (snd st ++ [q])%list)).

(** [Promise.all] over promises that were all created beforehand: every
    one of them runs, and the platform answers them in the order they were
    sent; the result is rejected when one of them is. *)
Fixpoint all {P A} (ps : list (t P A)) : t P (list A) :=
  fun st =>
    match ps with
    | [] => (Ok [], st)
    | p :: ps' =>
        let '(r, st1) := p st in
        let '(rs, st2) := all ps' st1 in
        (match r, rs with
         | Ok a, Ok l => Ok (a :: l)
         | Throw msg, _ => Throw msg
         | Ok _, Throw msg => Throw msg
         end, st2)
    end.

End Async.

Notation "x <- c1 ;; c2" := (Async.bind c1 (fun x => c2))
  (at level 61, c1 at next level, right associativity).
Notation "c1 ;;; c2" := (Async.bind c1 (fun _ => c2))
  (at level 61, right associativity).

(** ** The functions of [action.ts] *)

Section Action.

Context {Pct : Type}.
(** [ToString] on a percentage of the coverage summary. *)
Variable pctToString : Pct -> string.
(** [strip-ansi]. *)
Variable strip : string -> string.
(** [markdown-table]: the rows and the [align] option. *)
Variable table : list (list string) -> list string -> string.

Definition isFailed (assertion : AssertionResult) : bool :=
  String.eqb (status assertion) "failed".

Definition annotationOf (cwd : string) (result : TestResult)
    (assertion : AssertionResult) : Annotation :=
  {| path := JS.replace (name result) cwd EmptyString;
     start_line := match location assertion with
                   | Some l => line l
                   | None => 0
                   end;
     end_line := match location assertion with
                 | Some l => line l
                 | None => 0
                 end;
     annotation_level := "failure";
     ann_title := JS.join " > " (ancestorTitles assertion ++ [title assertion])%list;
     ann_message := strip (match failureMessages assertion with
                           | Some msgs => JS.join (JS.LF ++ JS.LF) msgs
                           | None => EmptyString
                           end) |}.

Definition getAnnotations (results : FormattedTestResults Pct) (cwd : string)
    : list Annotation :=
  if success results then []
  else
    flat_map
      (fun result =>
         map (annotationOf cwd result)
             (filter isFailed (assertionResults result)))
      (testResults results).

Definition getOutputText (results : FormattedTestResults Pct) : option string :=
  if success results then None
  else
    let entries :=
      filter JS.truthy (map (fun r => strip (message r)) (testResults results)) in
    Some (asMarkdownCode (JS.join JS.LF entries)).

Definition headerRow : list string :=
  ["Filename"; "Statements"; "Branches"; "Functions"; "Lines"].

Definition coverageAlign : list string := ["l"; "r"; "r"; "r"; "r"].

Definition coverageRow (cwd filename : string)
    (summary : CoverageSummaryData Pct) : list string :=
  [ JS.replace filename cwd EmptyString;
    pctToString (pct (statements summary)) ++ "%";
    pctToString (pct (branches summary)) ++ "%";
    pctToString (pct (functions summary)) ++ "%";
    pctToString (pct (lines summary)) ++ "%" ].

(** One turn of the loop over the entries: [continue] or [rows.push]. *)
Definition pushEntry (cwd : string) (rows : list (list string))
    (entry : string * FileCoverage Pct) : list (list string) :=
  match toSummary (snd entry) with
  | None => rows
  | Some summary => (rows ++ [coverageRow cwd (fst entry) summary])%list
  end.

Definition coverageRows (cwd : string) (covMap : CoverageMap Pct)
    : list (list string) :=
  fold_left (pushEntry cwd) covMap [headerRow].

Definition getCoverageTable (results : FormattedTestResults Pct) (cwd : string)
    : Err StringOrFalse :=
  match coverageMap results with
  | None => Ok (JsString EmptyString)
  | Some data =>
      match createCoverageMap data with
      | Throw msg => Throw msg
      | Ok covMap =>
          if Nat.eqb (List.length covMap) 0 then Ok JsFalse
          else Ok (JsString (COVERAGE_HEADER
                             ++ table (coverageRows cwd covMap) coverageAlign))
      end
  end.

Definition getCheckPayload (env : Env Pct) (results : FormattedTestResults Pct)
    (cwd : string) : CheckPayload :=
  let payload :=
    {| check_repo := context_repo (context env);
       head_sha := getSha (context env);
       check_name := input_command_name env;
       check_status := None;
       conclusion := None;
       output :=
         {| out_title := if success results then "Jest tests passed"
                         else "Jest tests failed";
            text := getOutputText results;
            summary :=
              if success results then
                JS.toString (numPassedTests results) ++ " tests passing in "
                ++ JS.toString (numPassedTestSuites results) ++ " suite"
                ++ (if numPassedTestSuites results >? 1 then "s" else EmptyString)
                ++ "."
              else
                "Failed tests: " ++ JS.toString (numFailedTests results) ++ "/"
                ++ JS.toString (numTotalTests results) ++ ". Failed suites: "
                ++ JS.toString (numFailedTests results) ++ "/"
                ++ JS.toString (numTotalTestSuites results) ++ ".";
            annotations := getAnnotations results cwd |} |} in
  {| check_repo := check_repo payload;
     head_sha := head_sha payload;
     check_name := check_name payload;
     check_status := Some "completed";
     conclusion := Some (if success results then "success" else "failure");
     output := output payload |}.

Definition shouldCommentCoverage (env : Env Pct) : Err bool :=
  coverage_comment env.

Definition shouldRunOnlyChangedFiles (env : Env Pct) : Err bool :=
  changes_only env.

Definition getJestCommand (env : Env Pct) (resultsFile : string) : Err string :=
  let cmd := input_test_command env in
  let jestOptions :=
    "--testLocationInResults --json --outputFile=" ++ JS.DQUOTE
    ++ resultsFile ++ JS.DQUOTE in
  match shouldCommentCoverage env with
  | Throw msg => Throw msg
  | Ok comment =>
      let jestOptions :=
        if comment then jestOptions ++ " --coverage" else jestOptions in
      match shouldRunOnlyChangedFiles env with
      | Throw msg => Throw msg
      | Ok changed =>
          let jestOptions :=
            match pull_request (context env) with
            | Some pr =>
                if changed && JS.truthy (base_ref pr)
                then jestOptions ++ " --changedSince=" ++ base_ref pr
                else jestOptions
            | None => jestOptions
            end in
          Ok (JS.replace cmd "{{args}}" jestOptions)
      end
  end.

Definition parseResults (env : Env Pct) : Err (FormattedTestResults Pct) :=
  results_document env.

Section Client.

Context {P : Type}.
Variable octokit : Octokit P.

Definition checksCreate (p : CheckPayload) : Async.t P unit :=
  Async.send (ChecksCreate p) (checks_create octokit p).

Definition listComments (r : Repo) (per_page issue : Z)
    : Async.t P (list IssueComment) :=
  Async.send (IssuesListComments r per_page issue)
             (issues_listComments octokit r per_page issue).

Definition deleteComment (r : Repo) (comment_id : Z) : Async.t P unit :=
  Async.send (IssuesDeleteComment r comment_id)
             (issues_deleteComment octokit r comment_id).

Definition createComment (p : CommentPayload) : Async.t P unit :=
  Async.send (IssuesCreateComment p) (issues_createComment octokit p).

(** The predicate of the [filter] in [deletePreviousComments]. *)
Definition isPreviousComment (c : IssueComment) : bool :=
  String.eqb (user_login c) "github-actions[bot]"
  && JS.startsWith (comment_body c) COVERAGE_HEADER.

Definition deletePreviousComments (ctx : Context) : Async.t P (list unit) :=
  data <- listComments (context_repo ctx) 100 (getPullId ctx) ;;
  Async.all
    (map (fun c => deleteComment (context_repo ctx) (id c))
         (filter isPreviousComment data)).

(** [execJest] swallows whatever the command does; it sends nothing
    to the platform. *)
Definition execJest (cmd : string) : Async.t P unit := Async.ret tt.

(** The body of the [try] block of [run], after the token check; it
    returns [results.success]. *)
Definition runChecked (env : Env Pct) (CWD : string) : Async.t P bool :=
  cmd <- Async.lift (getJestCommand env (RESULTS_FILE env)) ;;
  execJest cmd ;;;
  results <- Async.lift (parseResults env) ;;
  checksCreate (getCheckPayload env results CWD) ;;;
  commenting <- Async.lift (shouldCommentCoverage env) ;;
  (if commenting then
     coverage <- Async.lift (getCoverageTable results CWD) ;;
     match coverage with
     | JsFalse => Async.ret tt
     | JsString comment =>
         if JS.truthy comment then
           deletePreviousComments (context env) ;;;
           createComment (getCommentPayload (context env) comment)
         else Async.ret tt
     end
   else Async.ret tt) ;;;
  Async.ret (success results).

(** [run]: the message given to [core.setFailed], if any, and the
    platform with the log of the requests sent. *)
Definition run (env : Env Pct) (st : P * list Request)
    : option string * (P * list Request) :=
  let CWD := process_cwd env ++ sep env in
  let token :=
    match env_GITHUB_TOKEN env with
    | Some t => t
    | None => input_GITHUB_TOKEN env
    end in
  if negb (JS.truthy token) then (Some "GITHUB_TOKEN not set.", st)
  else
    match runChecked env CWD st with
    | (Ok true, st') => (None, st')
    | (Ok false, st') => (Some "Some tests failed.", st')
    | (Throw msg, st') => (Some msg, st')
    end.

(** The requests a run sends, starting from platform state [p]. *)
Definition requestsOfRun (env : Env Pct) (p : P) : list Request :=
  snd (snd (run env (p, []))).

End Client.

End Action.

(** ** What the specification says, in its own terms *)

(** The failure summary as documented: the suites fraction counts failed
    suites. *)
Definition documentedFailureSummary {Pct} (results : FormattedTestResults Pct)
    : string :=
  "Failed tests: " ++ JS.toString (numFailedTests results) ++ "/"
  ++ JS.toString (numTotalTests results) ++ ". Failed suites: "
  ++ JS.toString (numFailedTestSuites results) ++ "/"
  ++ JS.toString (numTotalTestSuites results) ++ ".".

(** Every assertion of the run with the file result it belongs to, in
    file-result order, then assertion order. *)
Definition allAssertions {Pct} (results : FormattedTestResults Pct)
    : list (TestResult * AssertionResult) :=
  flat_map (fun file => map (pair file) (assertionResults file))
           (testResults results).

Definition failedAssertions {Pct} (results : FormattedTestResults Pct)
    : list (TestResult * AssertionResult) :=
  filter (fun fa => String.eqb (status (snd fa)) "failed") (allAssertions results).

(** [titles] and [last] chained with the separator, as in
    [Auth > login > name of the test]. *)
Definition titleChain (titles : list string) (last : string) : string :=
  fold_right (fun t rest => t ++ " > " ++ rest) last titles.

(** What an annotation says about the failed assertion it stands for. *)
Record Annotates (strip : string -> string) (cwd : string)
    (file : TestResult) (assertion : AssertionResult) (ann : Annotation)
    : Prop := {
  annotates_path :
    forall rest, name file = cwd ++ rest -> path ann = rest;
  annotates_path_elsewhere :
    JS.split_at_first cwd (name file) = None -> path ann = name file;
  annotates_start_line :
    start_line ann = match location assertion with
                     | Some l => line l
                     | None => 0
                     end;
  annotates_end_line : end_line ann = start_line ann;
  annotates_level : annotation_level ann = "failure";
  annotates_title :
    ann_title ann = titleChain (ancestorTitles assertion) (title assertion);
  annotates_message :
    ann_message ann = match failureMessages assertion with
                      | Some msgs => strip (JS.join (JS.LF ++ JS.LF) msgs)
                      | None => EmptyString
                      end
}.

(** The entries of a coverage map that have a summary. *)
Definition summarizable {Pct} (covMap : CoverageMap Pct)
    : list (string * CoverageSummaryData Pct) :=
  flat_map (fun entry => match toSummary (snd entry) with
                         | Some summary => [(fst entry, summary)]
                         | None => []
                         end) covMap.

(** The summarizable file entries of the raw coverage map: its entries
    that are file coverage data, each with its summary. *)
Definition summarizableEntries {Pct} (data : CoverageMapData Pct)
    : list (string * CoverageSummaryData Pct) :=
  flat_map (fun entry => match snd entry with
                         | FileCoverageData summary => [(fst entry, summary)]
                         | NotFileCoverage _ => []
                         end) data.

Definition isFileCoverageData {Pct} (entry : CoverageEntry Pct) : bool :=
  match entry with
  | FileCoverageData _ => true
  | NotFileCoverage _ => false
  end.

(** Every entry of the raw coverage map is file coverage data. *)
Definition allFileCoverage {Pct} (data : CoverageMapData Pct) : Prop :=
  Forall (fun entry => isFileCoverageData (snd entry) = true) data.

Definition isPercentOf {Pct} (pctToString : Pct -> string) (metric : Totals Pct)
    (cell : string) : Prop :=
  cell = pctToString (pct metric) ++ "%".

(** A row of the table for a summarizable entry: the file name, then the
    four percentages. *)
Definition RowFor {Pct} (pctToString : Pct -> string) (cwd : string)
    (entry : string * CoverageSummaryData Pct) (row : list string) : Prop :=
  exists file st br fn ln,
    row = [file; st; br; fn; ln]
    /\ file = JS.replace (fst entry) cwd EmptyString
    /\ isPercentOf pctToString (statements (snd entry)) st
    /\ isPercentOf pctToString (branches (snd entry)) br
    /\ isPercentOf pctToString (functions (snd entry)) fn
    /\ isPercentOf pctToString (lines (snd entry)) ln.

(** The row the loop of [getCoverageTable] pushes for an entry that has a
    summary. *)
Definition rowOf {Pct} (pctToString : Pct -> string) (cwd : string)
    (entry : string * CoverageSummaryData Pct) : list string :=
  coverageRow pctToString cwd (fst entry) (snd entry).

(** The stripped messages of all file results. *)
Definition strippedMessages {Pct} (strip : string -> string)
    (results : FormattedTestResults Pct) : list string :=
  map (fun file => strip (message file)) (testResults results).

Definition nonEmpty (s : string) : bool := negb (String.eqb s EmptyString).

(** A fenced code block around [content] with its trailing white space
    removed. *)
Definition FencedTrimmed (content block : string) : Prop :=
  exists inner trailing,
    block = "```" ++ JS.LF ++ inner ++ JS.LF ++ "```"
    /\ inner ++ trailing = content
    /\ JS.allWhiteSpace trailing = true
    /\ JS.endsClean inner = true.

(** The comments that belong to the action: written by the automation
    identity, starting with the coverage header. *)
Definition ownedByAction (c : IssueComment) : Prop :=
  user_login c = "github-actions[bot]"
  /\ exists rest, comment_body c = COVERAGE_HEADER ++ rest.

(** The requests sent by an asynchronous step started on platform [p]. *)
Definition requestsOf {P A} (m : Async.t P A) (p : P) : list Request :=
  snd (snd (m (p, []))).

(** ** Stand-ins and sample inputs

    Used to run the functions on examples only.  [plainStrip] agrees with
    strip-ansi on text without escape sequences, which is all the samples
    contain; [pipeTable] lays the rows out between vertical bars with the
    alignment row after the first one; [quietOctokit] accepts every
    request and lists the comments held in the platform state. *)

Definition plainStrip (s : string) : string := s.

Definition alignCell (a : string) : string :=
  if String.eqb a "l" then ":-" else if String.eqb a "r" then "-:" else "-".

Definition pipeLine (cells : list string) : string :=
  "| " ++ JS.join " | " cells ++ " |".

Definition pipeTable (rows : list (list string)) (align : list string) : string :=
  match rows with
  | [] => EmptyString
  | first :: rest =>
      JS.join JS.LF (map pipeLine (first :: map alignCell align :: rest))
  end.

Definition quietOctokit : Octokit (list IssueComment) :=
  {| checks_create := fun _ p => (Ok tt, p);
     issues_listComments := fun _ _ _ p => (Ok p, p);
     issues_deleteComment :=
       fun _ i p => (Ok tt, filter (fun c => negb (Z.eqb (id c) i)) p);
     issues_createComment :=
       fun payload p =>
         (Ok tt,
          (p ++ [{| id := 1 + fold_right Z.max 0 (map id p);
                    user_login := "github-actions[bot]";
                    comment_body := body payload |}])%list) |}.

Definition sampleRepo : Repo := {| owner := "acme"; repo := "widgets" |}.

Definition pushContext : Context :=
  {| context_repo := sampleRepo; sha := "c0ffee"; pull_request := None |}.

Definition pullContext : Context :=
  {| context_repo := sampleRepo;
     sha := "c0ffee";
     pull_request :=
       Some {| number := 17; pr_head_sha := "beef01"; base_ref := "main" |} |}.

Definition loginFailure : AssertionResult :=
  {| status := "failed";
     ancestorTitles := ["Auth"; "login"];
     title := "rejects a wrong password";
     location := Some {| column := 5; line := 12 |};
     failureMessages := Some ["expected 401"; "received 200"] |}.

Definition logoutFailure : AssertionResult :=
  {| status := "failed";
     ancestorTitles := ["Auth"; "logout"];
     title := "clears the session";
     location := None;
     failureMessages := None |}.

Definition loginPass : AssertionResult :=
  {| status := "passed";
     ancestorTitles := ["Auth"; "login"];
     title := "accepts the password";
     location := Some {| column := 5; line := 4 |};
     failureMessages := Some [] |}.

Definition authFile : TestResult :=
  {| name := "/repo/src/auth.test.ts";
     message := "FAIL src/auth.test.ts";
     assertionResults := [loginPass; loginFailure; logoutFailure] |}.

Definition quietFile : TestResult :=
  {| name := "/repo/src/util.test.ts";
     message := EmptyString;
     assertionResults := [loginPass] |}.

Definition cartFile : TestResult :=
  {| name := "/repo/src/cart.test.ts";
     message := "FAIL src/cart.test.ts";
     assertionResults := [logoutFailure] |}.

Definition bundle (st br fn ln : Z) : CoverageEntry Z :=
  FileCoverageData {| statements := {| pct := st |};
                      branches := {| pct := br |};
                      functions := {| pct := fn |};
                      lines := {| pct := ln |} |}.

Definition noSummary : CoverageEntry Z :=
  NotFileCoverage "Invalid file coverage object, missing keys, found:".

(** Scenario 2 of the specification: two failed tests in one failed
    suite. *)
Definition failingRun (coverage : option (CoverageMapData Z)) : FormattedTestResults Z :=
  {| success := false;
     numTotalTests := 10;
     numPassedTests := 8;
     numFailedTests := 2;
     numTotalTestSuites := 3;
     numPassedTestSuites := 2;
     numFailedTestSuites := 1;
     testResults := [authFile; quietFile; cartFile];
     coverageMap := coverage |}.

Definition passingRun (coverage : option (CoverageMapData Z)) : FormattedTestResults Z :=
  {| success := true;
     numTotalTests := 42;
     numPassedTests := 42;
     numFailedTests := 0;
     numTotalTestSuites := 5;
     numPassedTestSuites := 5;
     numFailedTestSuites := 0;
     testResults := [authFile];
     coverageMap := coverage |}.

Definition sampleCoverage : CoverageMapData Z :=
  [ ("/repo/src/auth.ts", bundle 90 75 100 88);
    ("/repo/src/stub.ts", noSummary);
    ("/repo/src/cart.ts", bundle 50 0 40 50) ].

Definition sampleEnv (ctx : Context) (commenting : bool)
    (results : FormattedTestResults Z) : Env Z :=
  {| process_cwd := "/repo";
     sep := "/";
     RESULTS_FILE := "/repo/jest.results.json";
     env_GITHUB_TOKEN := Some "token";
     input_GITHUB_TOKEN := EmptyString;
     input_test_command := "npx jest {{args}}";
     input_command_name := "jest";
     coverage_comment := Ok commenting;
     changes_only := Ok false;
     context := ctx;
     results_document := Ok results |}.

Definition staleComments : list IssueComment :=
  [ {| id := 3; user_login := "github-actions[bot]";
       comment_body := COVERAGE_HEADER ++ "| old |" |};
    {| id := 4; user_login := "octocat";
       comment_body := COVERAGE_HEADER ++ "| quoted |" |};
    {| id := 5; user_login := "github-actions[bot]";
       comment_body := "Deployed to staging" |} ].

(** ** Vocabulary for the properties of a whole run *)

(** The character [c] does not occur in [s]. *)
Fixpoint lacks (c : ascii) (s : string) : bool :=
  match s with
  | EmptyString => true
  | String d r => negb (Ascii.eqb d c) && lacks c r
  end.

(** The characters [Number.prototype.toString] writes for an integer. *)
Definition isNumeral (c : ascii) : bool :=
  let n := nat_of_ascii c in
  (Nat.leb 48 n && Nat.leb n 57) || Nat.eqb n 45.

Fixpoint allNumeral (s : string) : bool :=
  match s with
  | EmptyString => true
  | String c r => isNumeral c && allNumeral r
  end.

Definition isDeletion (q : Request) : bool :=
  match q with
  | IssuesDeleteComment _ _ => true
  | _ => false
  end.

Definition isPosting (q : Request) : bool :=
  match q with
  | IssuesCreateComment _ => true
  | _ => false
  end.

(** The token [run] works with. *)
Definition tokenOf {Pct} (env : Env Pct) : string :=
  match env_GITHUB_TOKEN env with
  | Some t => t
  | None => input_GITHUB_TOKEN env
  end.

(** What [run] reports once every step went through. *)
Definition verdict {Pct} (results : FormattedTestResults Pct) : option string :=
  if success results then None else Some "Some tests failed.".

(** The deletions [deletePreviousComments] sends for the comments
    [data]. *)
Definition deletionsFor (ctx : Context) (data : list IssueComment)
    : list Request :=
  map (fun c => IssuesDeleteComment (context_repo ctx) (id c))
      (filter isPreviousComment data).

(** The order in which a run sends its requests: nothing; or the check
    alone; or the check, the listing and deletions; or those followed by
    one posting. *)
Definition InRunOrder (sent : list Request) : Prop :=
  sent = []
  \/ exists payload,
       sent = [ChecksCreate payload]
       \/ exists r issue deletions,
            Forall (fun q => isDeletion q = true) deletions
            /\ (sent = ChecksCreate payload
                         :: IssuesListComments r 100 issue :: deletions
                \/ exists comment,
                     sent = (ChecksCreate payload
                             :: IssuesListComments r 100 issue :: deletions
                             ++ [IssuesCreateComment comment])%list).

(** ** More sample inputs

    Environments with a missing token, a switch that does not parse and a
    test command without placeholder; a client that rejects the check and
    one that rejects deletions; a failed run without messages. *)

Definition emptyTokenEnv (results : FormattedTestResults Z) : Env Z :=
  {| process_cwd := "/repo";
     sep := "/";
     RESULTS_FILE := "/repo/jest.results.json";
     env_GITHUB_TOKEN := Some EmptyString;
     input_GITHUB_TOKEN := "token";
     input_test_command := "npx jest {{args}}";
     input_command_name := "jest";
     coverage_comment := Ok true;
     changes_only := Ok false;
     context := pullContext;
     results_document := Ok results |}.

Definition badSwitchEnv (results : FormattedTestResults Z) : Env Z :=
  {| process_cwd := "/repo";
     sep := "/";
     RESULTS_FILE := "/repo/jest.results.json";
     env_GITHUB_TOKEN := None;
     input_GITHUB_TOKEN := "token";
     input_test_command := "npx jest {{args}}";
     input_command_name := "jest";
     coverage_comment := Ok true;
     changes_only := Throw "Unexpected end of JSON input";
     context := pullContext;
     results_document := Ok results |}.

Definition fixedCommandEnv (results : FormattedTestResults Z) : Env Z :=
  {| process_cwd := "/repo";
     sep := "/";
     RESULTS_FILE := "/repo/jest.results.json";
     env_GITHUB_TOKEN := Some "token";
     input_GITHUB_TOKEN := EmptyString;
     input_test_command := "npm test";
     input_command_name := "jest";
     coverage_comment := Ok true;
     changes_only := Ok true;
     context := pullContext;
     results_document := Ok results |}.

Definition changedOnlyEnv (results : FormattedTestResults Z) : Env Z :=
  {| process_cwd := "/repo";
     sep := "/";
     RESULTS_FILE := "/repo/jest.results.json";
     env_GITHUB_TOKEN := Some "token";
     input_GITHUB_TOKEN := EmptyString;
     input_test_command := "npx jest {{args}} --ci";
     input_command_name := "jest";
     coverage_comment := Ok true;
     changes_only := Ok true;
     context := pullContext;
     results_document := Ok results |}.

Definition rejectingChecks : Octokit (list IssueComment) :=
  {| checks_create := fun _ p => (Throw "Bad credentials", p);
     issues_listComments := issues_listComments quietOctokit;
     issues_deleteComment := issues_deleteComment quietOctokit;
     issues_createComment := issues_createComment quietOctokit |}.

Definition rejectingDeletions : Octokit (list IssueComment) :=
  {| checks_create := checks_create quietOctokit;
     issues_listComments := issues_listComments quietOctokit;
     issues_deleteComment := fun _ _ p => (Throw "Forbidden", p);
     issues_createComment := issues_createComment quietOctokit |}.

Definition silentRun : FormattedTestResults Z :=
  {| success := false;
     numTotalTests := 1;
     numPassedTests := 0;
     numFailedTests := 1;
     numTotalTestSuites := 1;
     numPassedTestSuites := 0;
     numFailedTestSuites := 1;
     testResults := [quietFile; quietFile];
     coverageMap := None |}.

Definition summarizedCoverage : CoverageMapData Z :=
  [ ("/repo/src/auth.ts", bundle 90 75 100 88);
    ("/repo/src/cart.ts", bundle 50 0 40 50) ].

(** ** Strings: appending, prefixes, replacing, trimming *)

Module StringFacts.

Lemma append_nil_r (s : string) : s ++ EmptyString = s.
Proof. induction s as [|c s IH]; simpl; [reflexivity | now rewrite IH]. Qed.

Lemma append_assoc (a b c : string) : (a ++ b) ++ c = a ++ (b ++ c).
Proof. induction a as [|x a IH]; simpl; [reflexivity | now rewrite IH]. Qed.

Lemma length_append (a b : string) :
  String.length (a ++ b) = (String.length a + String.length b)%nat.
Proof. induction a as [|x a IH]; simpl; [reflexivity | now rewrite IH]. Qed.

Lemma append_inv_head (a x y : string) : a ++ x = a ++ y -> x = y.
Proof.
  induction a as [|c a IH]; simpl; intros H; [exact H|].
  injection H as H. now apply IH.
Qed.

Lemma append_inv_same_length (x y r r' : string) :
  String.length x = String.length y -> x ++ r = y ++ r' -> x = y /\ r = r'.
Proof.
  revert y. induction x as [|c x IH]; intros [|d y] Hlen H; simpl in *;
    try discriminate.
  - now split.
  - injection H as Hc H. injection Hlen as Hlen.
    destruct (IH y Hlen H) as [-> ->]. now subst.
Qed.

Lemma append_inv_tail (x y r : string) : x ++ r = y ++ r -> x = y.
Proof.
  intros H.
  assert (Hlen : String.length x = String.length y).
  { apply (f_equal String.length) in H. rewrite !length_append in H. lia. }
  now destruct (append_inv_same_length x y r r Hlen H).
Qed.

Lemma prefix_append (a b : string) : String.prefix a (a ++ b) = true.
Proof.
  induction a as [|c a IH]; simpl.
  - now destruct b.
  - destruct (ascii_dec c c) as [_|n]; [exact IH | now elim n].
Qed.

Lemma prefix_inv (a s : string) :
  String.prefix a s = true -> exists rest, s = a ++ rest.
Proof.
  revert s. induction a as [|c a IH]; intros s H.
  - now exists s.
  - destruct s as [|d s]; simpl in H; [discriminate|].
    destruct (ascii_dec c d) as [->|]; [|discriminate].
    destruct (IH s H) as [rest ->]. now exists rest.
Qed.

Lemma drop_append (a b : string) : JS.drop (String.length a) (a ++ b) = b.
Proof. induction a as [|c a IH]; simpl; [now destruct b | exact IH]. Qed.

Lemma split_at_first_unfold (pat s : string) :
  JS.split_at_first pat s
  = if String.prefix pat s
    then Some (EmptyString, JS.drop (String.length pat) s)
    else match s with
         | EmptyString => None
         | String c s' =>
             match JS.split_at_first pat s' with
             | Some (before, after) => Some (String c before, after)
             | None => None
             end
         end.
Proof. now destruct s. Qed.

(** Replacing a prefix by nothing leaves what follows the prefix. *)
Lemma replace_prefix (pat rest : string) :
  JS.replace (pat ++ rest) pat EmptyString = rest.
Proof.
  unfold JS.replace.
  now rewrite split_at_first_unfold, prefix_append, drop_append.
Qed.

(** [replace] takes the first occurrence wherever it is: a name that does
    not start with the pattern but contains it loses that occurrence. *)
Example replace_inner_occurrence :
  JS.replace "/mnt/repo/src/a.test.ts" "/repo/" EmptyString = "/mntsrc/a.test.ts".
Proof. reflexivity. Qed.

Lemma replace_absent (s pat replacement : string) :
  JS.split_at_first pat s = None -> JS.replace s pat replacement = s.
Proof. unfold JS.replace. now intros ->. Qed.

Lemma join_snoc (sep : string) (xs : list string) (last : string) :
  JS.join sep (xs ++ [last])%list
  = fold_right (fun t rest => t ++ sep ++ rest) last xs.
Proof.
  unfold JS.join. induction xs as [|x xs IH]; [reflexivity|].
  change ((x :: xs) ++ [last])%list with (x :: (xs ++ [last]))%list.
  simpl fold_right. rewrite <- IH.
  simpl. now destruct (xs ++ [last])%list eqn:E; [destruct xs; discriminate|].
Qed.

(** [trimRight] removes a run of white space at the end, and all of it. *)
Lemma trimRight_spec (s : string) :
  exists trailing,
    JS.trimRight s ++ trailing = s
    /\ JS.allWhiteSpace trailing = true
    /\ JS.endsClean (JS.trimRight s) = true.
Proof.
  induction s as [|c s (trailing & Happ & Hws & Hclean)].
  - now exists EmptyString.
  - simpl. destruct (JS.trimRight s) as [|d t] eqn:E.
    + destruct (JS.isWhiteSpace c) eqn:Hc.
      * exists (String c trailing). simpl in *. subst s.
        now rewrite Hc, Hws.
      * exists trailing. simpl in *. subst s. now rewrite Hc.
    + exists trailing. repeat split; try assumption.
      simpl in *. now rewrite Happ.
Qed.

Lemma truthy_nonEmpty (s : string) : JS.truthy s = nonEmpty s.
Proof. now destruct s. Qed.

Lemma toString_inj (n m : Z) : JS.toString n = JS.toString m -> n = m.
Proof.
  unfold JS.toString. intros H. apply to_int_inj.
  assert (E : Some (Z.to_int n) = Some (Z.to_int m))
    by now rewrite <- !NilEmpty.isi, H.
  now injection E.
Qed.

End StringFacts.

(** ** The check payload *)

Section CheckPayloadProperties.

Context {Pct : Type}.
Variable strip : string -> string.

Lemma summary_of_payload (env : Env Pct) (results : FormattedTestResults Pct)
    (cwd : string) :
  summary (output (getCheckPayload strip env results cwd))
  = if success results then
      JS.toString (numPassedTests results) ++ " tests passing in "
      ++ JS.toString (numPassedTestSuites results) ++ " suite"
      ++ (if numPassedTestSuites results >? 1 then "s" else EmptyString) ++ "."
    else
      "Failed tests: " ++ JS.toString (numFailedTests results) ++ "/"
      ++ JS.toString (numTotalTests results) ++ ". Failed suites: "
      ++ JS.toString (numFailedTests results) ++ "/"
      ++ JS.toString (numTotalTestSuites results) ++ ".".
Proof. reflexivity. Qed.

Lemma text_of_payload (env : Env Pct) (results : FormattedTestResults Pct)
    (cwd : string) :
  text (output (getCheckPayload strip env results cwd)) = getOutputText strip results.
Proof. reflexivity. Qed.

Lemma annotations_of_payload (env : Env Pct) (results : FormattedTestResults Pct)
    (cwd : string) :
  annotations (output (getCheckPayload strip env results cwd))
  = getAnnotations strip results cwd.
Proof. reflexivity. Qed.

(** C1.  The summary of a failed run is the documented text, with the
    failed-suites count as numerator of the suites fraction, exactly when
    the run has as many failed tests as failed suites: the code writes the
    failed-tests count in both fractions. *)
Theorem failure_summary_documented_iff (env : Env Pct)
    (results : FormattedTestResults Pct) (cwd : string) :
  success results = false ->
  summary (output (getCheckPayload strip env results cwd))
    = documentedFailureSummary results
  <-> numFailedTests results = numFailedTestSuites results.
Proof.
  intros Hfail. rewrite summary_of_payload, Hfail. unfold documentedFailureSummary.
  split.
  - intros H.
    do 5 apply StringFacts.append_inv_head in H.
    apply StringFacts.append_inv_tail in H.
    now apply StringFacts.toString_inj.
  - now intros ->.
Qed.

(** C2.  For the failed run with 2 failed tests out of 10 and 1 failed
    suite out of 3, the summary reads 2/10 for the tests and 2/3 for the
    suites, whatever the other fields of the results are. *)
Theorem scenario2_summary (env : Env Pct) (cwd : string)
    (passedTests passedSuites : Z) (files : list TestResult)
    (coverage : option (CoverageMapData Pct)) :
  summary (output (getCheckPayload strip env
    {| success := false;
       numTotalTests := 10;
       numPassedTests := passedTests;
       numFailedTests := 2;
       numTotalTestSuites := 3;
       numPassedTestSuites := passedSuites;
       numFailedTestSuites := 1;
       testResults := files;
       coverageMap := coverage |} cwd))
  = "Failed tests: 2/10. Failed suites: 2/3.".
Proof. reflexivity. Qed.

(** C5.  For a successful run there are no annotations and the payload
    carries no text, whatever the file results hold. *)
Theorem success_no_annotations_no_text (env : Env Pct)
    (results : FormattedTestResults Pct) (cwd : string) :
  success results = true ->
  getAnnotations strip results cwd = []
  /\ annotations (output (getCheckPayload strip env results cwd)) = []
  /\ text (output (getCheckPayload strip env results cwd)) = None.
Proof.
  intros Hok. rewrite annotations_of_payload, text_of_payload.
  unfold getAnnotations, getOutputText. now rewrite Hok.
Qed.

End CheckPayloadProperties.

(** ** Annotations *)

Section AnnotationProperties.

Context {Pct : Type}.
Variable strip : string -> string.
Hypothesis strip_empty : strip EmptyString = EmptyString.

Lemma annotationOf_annotates (cwd : string) (file : TestResult)
    (assertion : AssertionResult) :
  Annotates strip cwd file assertion (annotationOf strip cwd file assertion).
Proof.
  constructor; simpl.
  - intros rest ->. apply StringFacts.replace_prefix.
  - apply StringFacts.replace_absent.
  - reflexivity.
  - reflexivity.
  - reflexivity.
  - apply StringFacts.join_snoc.
  - destruct (failureMessages assertion); [reflexivity | exact strip_empty].
Qed.

Lemma annotations_of_file (cwd : string) (file : TestResult)
    (assertions : list AssertionResult) :
  Forall2 (fun fa ann => Annotates strip cwd (fst fa) (snd fa) ann)
    (filter (fun fa => String.eqb (status (snd fa)) "failed")
            (map (pair file) assertions))
    (map (annotationOf strip cwd file) (filter isFailed assertions)).
Proof.
  induction assertions as [|a assertions IH]; simpl; [constructor|].
  unfold isFailed at 1.
  destruct (String.eqb (status a) "failed"); simpl; [|exact IH].
  constructor; [apply annotationOf_annotates | exact IH].
Qed.

Lemma annotations_of_files (cwd : string) (files : list TestResult) :
  Forall2 (fun fa ann => Annotates strip cwd (fst fa) (snd fa) ann)
    (filter (fun fa => String.eqb (status (snd fa)) "failed")
            (flat_map (fun file => map (pair file) (assertionResults file)) files))
    (flat_map (fun file => map (annotationOf strip cwd file)
                               (filter isFailed (assertionResults file))) files).
Proof.
  induction files as [|file files IH]; simpl; [constructor|].
  rewrite filter_app. apply Forall2_app; [apply annotations_of_file | exact IH].
Qed.


(** The number of annotations is the number of failed assertions. *)
Lemma annotations_count (results : FormattedTestResults Pct) (cwd : string) :
  success results = false ->
  List.length (getAnnotations strip results cwd)
  = List.length (failedAssertions results).
Proof.
  intros Hfail. unfold getAnnotations, failedAssertions, allAssertions.
  rewrite Hfail. symmetry.
  exact (Forall2_length (annotations_of_files cwd (testResults results))).
Qed.

End AnnotationProperties.

(** ** The text of the check *)

Section OutputTextProperties.

Context {Pct : Type}.
Variable strip : string -> string.

Lemma asMarkdownCode_fenced (content : string) :
  FencedTrimmed content (asMarkdownCode content).
Proof.
  destruct (StringFacts.trimRight_spec content) as (trailing & Happ & Hws & Hclean).
  exists (JS.trimRight content), trailing. now repeat split.
Qed.

Lemma filter_truthy (xs : list string) : filter JS.truthy xs = filter nonEmpty xs.
Proof.
  induction xs as [|x xs IH]; simpl; [reflexivity|].
  now rewrite StringFacts.truthy_nonEmpty, IH.
Qed.

(** C7, as the code has it.  For a failed run the text of the payload is a
    fenced code block around the stripped messages of the file results
    that are not empty after stripping, joined by newlines, with the
    trailing white space removed; file results whose stripped message is
    empty contribute nothing. *)
Theorem failure_text_fenced_messages (env : Env Pct)
    (results : FormattedTestResults Pct) (cwd : string) :
  success results = false ->
  exists block,
    text (output (getCheckPayload strip env results cwd)) = Some block
    /\ FencedTrimmed
         (JS.join JS.LF (filter nonEmpty (strippedMessages strip results)))
         block.
Proof.
  intros Hfail. rewrite text_of_payload. unfold getOutputText. rewrite Hfail.
  eexists. split; [reflexivity|].
  rewrite filter_truthy. apply asMarkdownCode_fenced.
Qed.

End OutputTextProperties.

(** ** The coverage table *)

Section CoverageProperties.

Context {Pct : Type}.
Variable pctToString : Pct -> string.
Variable table : list (list string) -> list string -> string.

Lemma rowOf_RowFor (cwd : string) (entry : string * CoverageSummaryData Pct) :
  RowFor pctToString cwd entry (rowOf pctToString cwd entry).
Proof.
  unfold RowFor, rowOf, coverageRow, isPercentOf.
  repeat eexists.
Qed.

(** The loop pushes one row per entry that has a summary, in order. *)
Lemma fold_pushEntry (cwd : string) (covMap : CoverageMap Pct)
    (rows : list (list string)) :
  fold_left (pushEntry pctToString cwd) covMap rows
  = (rows ++ map (rowOf pctToString cwd) (summarizable covMap))%list.
Proof.
  revert rows. induction covMap as [|[filename data] covMap IH]; intros rows.
  - simpl. now rewrite app_nil_r.
  - simpl. rewrite IH. unfold pushEntry. simpl.
    destruct (toSummary data) as [summary|]; simpl; [|reflexivity].
    now rewrite <- app_assoc.
Qed.

Lemma coverageRows_spec (cwd : string) (covMap : CoverageMap Pct) :
  coverageRows pctToString cwd covMap
  = headerRow :: map (rowOf pctToString cwd) (summarizable covMap).
Proof. unfold coverageRows. now rewrite fold_pushEntry. Qed.

(** What [createCoverageMap] returns has the summaries of the file
    entries, in order, and as many entries as the raw map. *)
Lemma createCoverageMap_accepts (data : CoverageMapData Pct) :
  allFileCoverage data ->
  exists covMap,
    createCoverageMap data = Ok covMap
    /\ summarizable covMap = summarizableEntries data
    /\ List.length covMap = List.length data.
Proof.
  induction 1 as [|[filename entry] data Hentry _ (covMap & Hmap & Hsum & Hlen)].
  - now exists [].
  - destruct entry as [summary|complaint]; [|discriminate Hentry].
    exists ((filename, {| toSummary := Some summary |}) :: covMap).
    simpl. rewrite Hmap. unfold summarizable, summarizableEntries in *. simpl.
    now rewrite Hsum, Hlen.
Qed.

Lemma summarizableEntries_all (data : CoverageMapData Pct) :
  allFileCoverage data ->
  List.length (summarizableEntries data) = List.length data.
Proof.
  induction 1 as [|[filename entry] data Hentry _ IH]; [reflexivity|].
  destruct entry as [summary|complaint]; [|discriminate Hentry].
  unfold summarizableEntries in *. simpl. now rewrite IH.
Qed.

Lemma getCoverageTable_nonempty (results : FormattedTestResults Pct)
    (cwd : string) (data : CoverageMapData Pct) :
  coverageMap results = Some data ->
  data <> [] ->
  allFileCoverage data ->
  getCoverageTable pctToString table results cwd
  = Ok (JsString
          (COVERAGE_HEADER
           ++ table (headerRow
                     :: map (rowOf pctToString cwd) (summarizableEntries data))
                    coverageAlign)).
Proof.
  intros Hmap Hne Hall. unfold getCoverageTable. rewrite Hmap.
  destruct (createCoverageMap_accepts data Hall) as (covMap & -> & Hsum & Hlen).
  rewrite Hlen. destruct data as [|entry data]; [now elim Hne|].
  simpl. now rewrite coverageRows_spec, Hsum.
Qed.




(** C6, as the code has it.  For a coverage map that has entries, all of
    them summarizable file entries, [n] in number, the result is the
    coverage header followed by the table of [n + 1] rows: the header row,
    then one row per entry, in order, made of the file name and of the
    four percentages, each followed by the percent sign. *)
Theorem coverage_table_rows (results : FormattedTestResults Pct) (cwd : string)
    (data : CoverageMapData Pct) (n : nat) :
  coverageMap results = Some data ->
  data <> [] ->
  allFileCoverage data ->
  List.length (summarizableEntries data) = n ->
  exists rows,
    getCoverageTable pctToString table results cwd
    = Ok (JsString (COVERAGE_HEADER ++ table (headerRow :: rows) coverageAlign))
    /\ List.length (headerRow :: rows) = (n + 1)%nat
    /\ Forall2 (RowFor pctToString cwd) (summarizableEntries data) rows.
Proof.
  intros Hmap Hne Hall Hn.
  exists (map (rowOf pctToString cwd) (summarizableEntries data)). repeat split.
  - now apply getCoverageTable_nonempty.
  - simpl. rewrite length_map, Hn. lia.
  - clear Hn. induction (summarizableEntries data) as [|entry entries IH];
      simpl; constructor; [apply rowOf_RowFor | exact IH].
Qed.

End CoverageProperties.

(** ** The comment step *)

Section ClientProperties.

Context {Pct : Type} {P : Type}.
Variable pctToString : Pct -> string.
Variable strip : string -> string.
Variable table : list (list string) -> list string -> string.
Variable octokit : Octokit P.

Lemma isPreviousComment_owned (c : IssueComment) :
  isPreviousComment c = true <-> ownedByAction c.
Proof.
  unfold isPreviousComment, ownedByAction, JS.startsWith.
  rewrite andb_true_iff, String.eqb_eq. split; intros [Hlogin Hbody]; split;
    try assumption.
  - now apply StringFacts.prefix_inv.
  - destruct Hbody as [rest ->]. apply StringFacts.prefix_append.
Qed.

Lemma send_log {A} (q : Request) (handler : P -> Err A * P)
    (st : P * list Request) :
  snd (snd (Async.send q handler st)) = (snd st ++ [q])%list.
Proof. unfold Async.send. now destruct (handler (fst st)). Qed.

(** [Promise.all] over the deletions: every one of them is sent, in the
    order of the comments, whatever the platform answers. *)
Lemma all_deletions_log (r : Repo) (comments : list IssueComment)
    (st : P * list Request) :
  snd (snd (Async.all (map (fun c => deleteComment octokit r (id c)) comments) st))
  = (snd st ++ map (fun c => IssuesDeleteComment r (id c)) comments)%list.
Proof.
  revert st. induction comments as [|c comments IH]; intros st; simpl.
  - now rewrite app_nil_r.
  - destruct (deleteComment octokit r (id c) st) as [res st1] eqn:E1.
    specialize (IH st1).
    destruct (Async.all _ st1) as [rs st2]. simpl in *. rewrite IH.
    assert (Hlog : snd st1 = (snd st ++ [IssuesDeleteComment r (id c)])%list).
    { unfold deleteComment in E1.
      rewrite <- (send_log _ (issues_deleteComment octokit r (id c)) st).
      now rewrite E1. }
    rewrite Hlog. now rewrite <- app_assoc.
Qed.

(** The requests of [deletePreviousComments], by the answer to the
    listing. *)
Lemma deletePreviousComments_log (ctx : Context) (st : P * list Request) :
  snd (snd (deletePreviousComments octokit ctx st))
  = (snd st
     ++ IssuesListComments (context_repo ctx) 100 (getPullId ctx)
        :: match fst (issues_listComments octokit (context_repo ctx) 100
                        (getPullId ctx) (fst st)) with
           | Ok data =>
               map (fun c => IssuesDeleteComment (context_repo ctx) (id c))
                   (filter isPreviousComment data)
           | Throw _ => []
           end)%list.
Proof.
  unfold deletePreviousComments, Async.bind, listComments, Async.send.
  destruct (issues_listComments octokit (context_repo ctx) 100 (getPullId ctx)
              (fst st)) as [[data|msg] p']; simpl.
  - rewrite all_deletions_log. simpl. now rewrite <- app_assoc.
  - reflexivity.
Qed.

(** C8.  Given the comments the listing returns, the deletions sent are
    those of the listed comments written by [github-actions[bot]] whose
    body starts with the coverage header: each such comment is deleted,
    every deletion is for such a comment, and, the identifiers being
    distinct, a listed comment is deleted if and only if it has both
    properties. *)
Theorem deletions_exactly_owned (ctx : Context) (p p' : P)
    (data : list IssueComment) :
  issues_listComments octokit (context_repo ctx) 100 (getPullId ctx) p
    = (Ok data, p') ->
  let sent := requestsOf (deletePreviousComments octokit ctx) p in
  (forall c, In c data -> ownedByAction c ->
     In (IssuesDeleteComment (context_repo ctx) (id c)) sent)
  /\ (forall r i, In (IssuesDeleteComment r i) sent ->
        r = context_repo ctx
        /\ exists c, In c data /\ id c = i /\ ownedByAction c)
  /\ (NoDup (map id data) ->
      forall c, In c data ->
        (In (IssuesDeleteComment (context_repo ctx) (id c)) sent
         <-> ownedByAction c)).
Proof.
  intros Hlist sent.
  assert (Hsent : sent
    = IssuesListComments (context_repo ctx) 100 (getPullId ctx)
      :: map (fun c => IssuesDeleteComment (context_repo ctx) (id c))
             (filter isPreviousComment data)).
  { unfold sent, requestsOf. rewrite deletePreviousComments_log. simpl.
    now rewrite Hlist. }
  assert (Hin : forall c, In c data -> ownedByAction c ->
            In (IssuesDeleteComment (context_repo ctx) (id c)) sent).
  { intros c Hc Hown. rewrite Hsent. right.
    apply in_map_iff. exists c. split; [reflexivity|].
    apply filter_In. split; [exact Hc | now apply isPreviousComment_owned]. }
  assert (Hout : forall r i, In (IssuesDeleteComment r i) sent ->
            r = context_repo ctx
            /\ exists c, In c data /\ id c = i /\ ownedByAction c).
  { intros r i Hi. rewrite Hsent in Hi. destruct Hi as [Hi|Hi]; [discriminate|].
    apply in_map_iff in Hi. destruct Hi as (c & Heq & Hc).
    apply filter_In in Hc. destruct Hc as [Hc Hprev].
    injection Heq as <- <-. split; [reflexivity|].
    exists c. repeat split; [exact Hc | now apply isPreviousComment_owned ..]. }
  split; [exact Hin | split; [exact Hout|]].
  intros Hnodup c Hc. split; [|now apply Hin].
  intros Hi. destruct (Hout _ _ Hi) as (_ & c' & Hc' & Hid & Hown).
  assert (c' = c) as ->; [|exact Hown].
  clear - Hnodup Hc Hc' Hid. induction data as [|d data IH]; [contradiction|].
  simpl in Hnodup. inversion Hnodup as [|? ? Hnotin Hrest]; subst.
  destruct Hc as [->|Hc], Hc' as [->|Hc']; try reflexivity.
  - elim Hnotin. rewrite <- Hid. now apply in_map.
  - elim Hnotin. rewrite Hid. now apply in_map.
  - now apply IH.
Qed.

Lemma getJestCommand_commenting (env : Env Pct) (resultsFile : string) :
  coverage_comment env = Ok true ->
  (exists cmd, getJestCommand env resultsFile = Ok cmd)
  \/ (exists msg, getJestCommand env resultsFile = Throw msg).
Proof.
  intros Hcc. unfold getJestCommand, shouldCommentCoverage, shouldRunOnlyChangedFiles.
  rewrite Hcc. destruct (changes_only env); [left | right]; eexists; reflexivity.
Qed.

(** C9.  When the coverage comment is asked for and [getCoverageTable]
    returns [false] or the empty string, a run sends no request about
    comments (no listing, no deletion, no posting): it sends nothing at
    all, or the check alone, and the platform is as it was or as the
    creation of the check left it. *)
Theorem falsy_table_no_comment_requests (env : Env Pct) (p : P)
    (results : FormattedTestResults Pct) (coverage : StringOrFalse) :
  coverage_comment env = Ok true ->
  results_document env = Ok results ->
  getCoverageTable pctToString table results (process_cwd env ++ sep env)
    = Ok coverage ->
  truthyResult coverage = false ->
  let payload := getCheckPayload strip env results (process_cwd env ++ sep env) in
  let final := snd (run pctToString strip table octokit env (p, [])) in
  Forall (fun q => isCommentRequest q = false)
         (requestsOfRun pctToString strip table octokit env p)
  /\ (final = (p, [])
      \/ final = (snd (checks_create octokit payload p), [ChecksCreate payload])).
Proof.
  intros Hcc Hres Htable Hfalsy payload final.
  assert (Hfinal : final = (p, [])
      \/ final = (snd (checks_create octokit payload p), [ChecksCreate payload])).
  { unfold final, run.
    destruct (negb (JS.truthy _)); [now left|].
    unfold runChecked, Async.bind, Async.lift, Async.ret, execJest, parseResults,
      shouldCommentCoverage, checksCreate, Async.send.
    destruct (getJestCommand_commenting env (RESULTS_FILE env) Hcc)
      as [[cmd ->]|[msg ->]]; [|now left].
    rewrite Hres, Hcc. simpl. fold payload.
    destruct (checks_create octokit payload p) as [[[]|msg] p1]; simpl.
    - rewrite Htable. destruct coverage as [|comment]; simpl in *.
      + destruct (success results); now right.
      + rewrite Hfalsy. destruct (success results); now right.
    - now right. }
  split; [|exact Hfinal].
  unfold requestsOfRun. fold final.
  destruct Hfinal as [->| ->]; repeat constructor.
Qed.

(** C10.  When the event has no pull request, [getPullId] is 0, the
    comment payload addresses issue 0, and a run that reaches the comment
    step is neither stopped nor cut short by it: it lists the comments of
    issue 0 and, when the listing and the deletions go through, posts the
    comment on issue 0. *)
Theorem no_pull_request_issue_zero (env : Env Pct) (p p1 : P)
    (results : FormattedTestResults Pct) (cmd comment : string) :
  pull_request (context env) = None ->
  JS.truthy (match env_GITHUB_TOKEN env with
             | Some t => t
             | None => input_GITHUB_TOKEN env
             end) = true ->
  getJestCommand env (RESULTS_FILE env) = Ok cmd ->
  results_document env = Ok results ->
  coverage_comment env = Ok true ->
  getCoverageTable pctToString table results (process_cwd env ++ sep env)
    = Ok (JsString comment) ->
  JS.truthy comment = true ->
  checks_create octokit
    (getCheckPayload strip env results (process_cwd env ++ sep env)) p
    = (Ok tt, p1) ->
  let check :=
    ChecksCreate (getCheckPayload strip env results (process_cwd env ++ sep env)) in
  let listing := IssuesListComments (context_repo (context env)) 100 0 in
  let posting :=
    IssuesCreateComment {| comment_repo := context_repo (context env);
                           body := comment;
                           issue_number := 0 |} in
  let sent := requestsOfRun pctToString strip table octokit env p in
  getPullId (context env) = 0
  /\ getCommentPayload (context env) comment
     = {| comment_repo := context_repo (context env);
          body := comment;
          issue_number := 0 |}
  /\ (exists rest, sent = check :: listing :: rest)
  /\ (forall units st,
        deletePreviousComments octokit (context env) (p1, [check]) = (Ok units, st) ->
        sent = (snd st ++ [posting])%list).
Proof.
  intros Hpr Htoken Hcmd Hres Hcc Htable Htruthy Hcheck check listing posting sent.
  assert (Hid : getPullId (context env) = 0) by (unfold getPullId; now rewrite Hpr).
  assert (Hpayload : getCommentPayload (context env) comment
     = {| comment_repo := context_repo (context env);
          body := comment;
          issue_number := 0 |}) by (unfold getCommentPayload; now rewrite Hid).
  assert (Hsent : sent
    = snd (snd ((deletePreviousComments octokit (context env) ;;;
                 createComment octokit (getCommentPayload (context env) comment))
                  (p1, [check])))).
  { unfold sent, requestsOfRun, run. rewrite Htoken. simpl negb. cbv iota.
    unfold runChecked, Async.lift, execJest, parseResults,
      shouldCommentCoverage, checksCreate.
    unfold Async.bind at 1. rewrite Hcmd.
    unfold Async.bind at 1, Async.ret at 1.
    unfold Async.bind at 1. rewrite Hres.
    unfold Async.bind at 1, Async.send at 1. simpl fst. rewrite Hcheck.
    unfold Async.bind at 1. rewrite Hcc.
    unfold Async.bind at 1. cbv iota. unfold Async.bind at 1.
    rewrite Htable, Htruthy. simpl snd. simpl app. fold check.
    destruct ((deletePreviousComments octokit (context env) ;;;
               createComment octokit (getCommentPayload (context env) comment))
                (p1, [check])) as [[[]|msg] st']; simpl; [|reflexivity].
    unfold Async.ret. now destruct (success results). }
  repeat split; try assumption.
  - pose proof (deletePreviousComments_log (context env) (p1, [check])) as Hlog.
    rewrite Hid in Hlog. fold listing in Hlog. simpl in Hlog.
    rewrite Hsent. unfold Async.bind.
    destruct (deletePreviousComments octokit (context env) (p1, [check]))
      as [[units|msg] st']; simpl in *.
    + unfold createComment. rewrite send_log, Hlog. simpl. eexists. reflexivity.
    + rewrite Hlog. eexists. reflexivity.
  - intros units st Hdel. rewrite Hsent. unfold Async.bind. rewrite Hdel.
    unfold createComment. rewrite send_log, Hpayload. reflexivity.
Qed.

End ClientProperties.

(** ** The theorems at work on the sample run *)

Lemma failure_summary_documented_iff_witness :
  success (failingRun None) = false
  /\ (summary (output (getCheckPayload plainStrip
                 (sampleEnv pushContext false (failingRun None))
                 (failingRun None) "/repo/"))
      = documentedFailureSummary (failingRun None)
      <-> numFailedTests (failingRun None) = numFailedTestSuites (failingRun None)).
Proof.
  split; [reflexivity|].
  exact (failure_summary_documented_iff plainStrip
           (sampleEnv pushContext false (failingRun None))
           (failingRun None) "/repo/" eq_refl).
Defined.


Lemma success_no_annotations_no_text_witness :
  success (passingRun None) = true
  /\ getAnnotations plainStrip (passingRun None) "/repo/" = []
  /\ annotations (output (getCheckPayload plainStrip
                    (sampleEnv pullContext false (passingRun None))
                    (passingRun None) "/repo/")) = []
  /\ text (output (getCheckPayload plainStrip
             (sampleEnv pullContext false (passingRun None))
             (passingRun None) "/repo/")) = None.
Proof.
  split; [reflexivity|].
  exact (success_no_annotations_no_text plainStrip
           (sampleEnv pullContext false (passingRun None))
           (passingRun None) "/repo/" eq_refl).
Defined.

Lemma failure_text_fenced_messages_witness :
  success (failingRun None) = false
  /\ exists block,
       text (output (getCheckPayload plainStrip
               (sampleEnv pushContext false (failingRun None))
               (failingRun None) "/repo/")) = Some block
       /\ FencedTrimmed
            (JS.join JS.LF
               (filter nonEmpty (strippedMessages plainStrip (failingRun None))))
            block.
Proof.
  split; [reflexivity|].
  exact (failure_text_fenced_messages plainStrip
           (sampleEnv pushContext false (failingRun None))
           (failingRun None) "/repo/" eq_refl).
Defined.

(** C7, as stated, fails on the sample run: its second file result has an
    empty message, which the text leaves out, so that the text is no
    fenced block around the newline-joined messages of all three file
    results. *)
Lemma failure_text_all_messages_counterexample :
  success (failingRun None) = false
  /\ ~ exists block,
         text (output (getCheckPayload plainStrip
                 (sampleEnv pushContext false (failingRun None))
                 (failingRun None) "/repo/")) = Some block
         /\ FencedTrimmed
              (JS.join JS.LF (strippedMessages plainStrip (failingRun None)))
              block.
Proof.
  split; [reflexivity|].
  intros (block & Hblock & inner & trailing & Hfence & Happ & _).
  vm_compute in Hblock. injection Hblock as <-.
  simpl in Hfence. injection Hfence as Hfence.
  apply (StringFacts.append_inv_tail
           ("FAIL src/auth.test.ts" ++ JS.LF ++ "FAIL src/cart.test.ts")
           inner (JS.LF ++ "```")) in Hfence.
  subst inner. vm_compute in Happ. discriminate Happ.
Qed.



Lemma coverage_table_rows_witness :
  coverageMap (failingRun (Some summarizedCoverage)) = Some summarizedCoverage
  /\ summarizedCoverage <> []
  /\ allFileCoverage summarizedCoverage
  /\ List.length (summarizableEntries summarizedCoverage) = 2%nat
  /\ exists rows,
       getCoverageTable JS.toString pipeTable
         (failingRun (Some summarizedCoverage)) "/repo/"
       = Ok (JsString
               (COVERAGE_HEADER ++ pipeTable (headerRow :: rows) coverageAlign))
       /\ List.length (headerRow :: rows) = (2 + 1)%nat
       /\ Forall2 (RowFor JS.toString "/repo/")
            (summarizableEntries summarizedCoverage) rows.
Proof.
  assert (Hall : allFileCoverage summarizedCoverage) by (repeat constructor).
  split; [reflexivity|]. split; [discriminate|]. split; [exact Hall|].
  split; [reflexivity|].
  refine (coverage_table_rows JS.toString pipeTable
            (failingRun (Some summarizedCoverage)) "/repo/" summarizedCoverage 2
            eq_refl _ Hall eq_refl).
  discriminate.
Defined.

(** C6, as stated, fails on the empty coverage map, which has 0
    summarizable entries: the result is [false], no string at all.  It
    fails as well on a map with 2 summarizable entries and one that is not
    file coverage data: [createCoverageMap] throws on it, and nothing is
    returned. *)
Lemma coverage_table_rows_counterexample :
  (coverageMap (failingRun (Some [])) = Some []
   /\ List.length (summarizableEntries (@nil (string * CoverageEntry Z))) = 0%nat
   /\ ~ exists rows,
          getCoverageTable JS.toString pipeTable (failingRun (Some [])) "/repo/"
          = Ok (JsString (COVERAGE_HEADER ++ pipeTable rows coverageAlign))
          /\ List.length rows = (0 + 1)%nat)
  /\ (coverageMap (failingRun (Some sampleCoverage)) = Some sampleCoverage
      /\ List.length (summarizableEntries sampleCoverage) = 2%nat
      /\ ~ exists rows,
             getCoverageTable JS.toString pipeTable
               (failingRun (Some sampleCoverage)) "/repo/"
             = Ok (JsString (COVERAGE_HEADER ++ pipeTable rows coverageAlign))
             /\ List.length rows = (2 + 1)%nat).
Proof.
  split; (split; [reflexivity|]); (split; [reflexivity|]);
    intros (rows & Hrows & _); discriminate Hrows.
Qed.

Lemma deletions_exactly_owned_witness :
  issues_listComments quietOctokit (context_repo pullContext) 100
    (getPullId pullContext) staleComments = (Ok staleComments, staleComments)
  /\ requestsOf (deletePreviousComments quietOctokit pullContext) staleComments
     = [IssuesListComments sampleRepo 100 17; IssuesDeleteComment sampleRepo 3]
  /\ (forall c, In c staleComments -> ownedByAction c ->
        In (IssuesDeleteComment (context_repo pullContext) (id c))
           (requestsOf (deletePreviousComments quietOctokit pullContext)
              staleComments)).
Proof.
  split; [reflexivity|]. split; [reflexivity|].
  exact (proj1 (deletions_exactly_owned quietOctokit pullContext
                  staleComments staleComments staleComments eq_refl)).
Defined.

Lemma falsy_table_no_comment_requests_witness :
  coverage_comment (sampleEnv pullContext true (failingRun (Some []))) = Ok true
  /\ results_document (sampleEnv pullContext true (failingRun (Some [])))
     = Ok (failingRun (Some []))
  /\ getCoverageTable JS.toString pipeTable (failingRun (Some [])) "/repo/"
     = Ok JsFalse
  /\ truthyResult JsFalse = false
  /\ Forall (fun q => isCommentRequest q = false)
       (requestsOfRun JS.toString plainStrip pipeTable quietOctokit
          (sampleEnv pullContext true (failingRun (Some []))) staleComments).
Proof.
  split; [reflexivity|]. split; [reflexivity|]. split; [reflexivity|].
  split; [reflexivity|].
  exact (proj1 (falsy_table_no_comment_requests JS.toString plainStrip pipeTable
                  quietOctokit
                  (sampleEnv pullContext true (failingRun (Some [])))
                  staleComments (failingRun (Some [])) JsFalse
                  eq_refl eq_refl eq_refl eq_refl)).
Defined.

Lemma no_pull_request_issue_zero_witness :
  pull_request (context (sampleEnv pushContext true
                           (failingRun (Some summarizedCoverage)))) = None
  /\ getPullId pushContext = 0
  /\ exists rest,
       requestsOfRun JS.toString plainStrip pipeTable quietOctokit
         (sampleEnv pushContext true (failingRun (Some summarizedCoverage)))
         staleComments
       = ChecksCreate
           (getCheckPayload plainStrip
              (sampleEnv pushContext true (failingRun (Some summarizedCoverage)))
              (failingRun (Some summarizedCoverage)) "/repo/")
         :: IssuesListComments sampleRepo 100 0 :: rest.
Proof.
  split; [reflexivity|].
  pose proof (no_pull_request_issue_zero JS.toString plainStrip pipeTable
                quietOctokit
                (sampleEnv pushContext true (failingRun (Some summarizedCoverage)))
                staleComments staleComments (failingRun (Some summarizedCoverage))
                _ _ eq_refl eq_refl eq_refl eq_refl eq_refl eq_refl eq_refl eq_refl)
    as (Hid & _ & Hsent & _).
  split; [exact Hid | exact Hsent].
Defined.

(** ** A whole run, step by step *)

Section RunProperties.

Context {Pct : Type} {P : Type}.
Variable pctToString : Pct -> string.
Variable strip : string -> string.
Variable table : list (list string) -> list string -> string.
Variable octokit : Octokit P.

(** [run], one step after the other. *)
Lemma run_cases (env : Env Pct) (p : P) :
  run pctToString strip table octokit env (p, [])
  = if negb (JS.truthy (tokenOf env)) then (Some "GITHUB_TOKEN not set.", (p, []))
    else
      match getJestCommand env (RESULTS_FILE env) with
      | Throw msg => (Some msg, (p, []))
      | Ok _ =>
          match results_document env with
          | Throw msg => (Some msg, (p, []))
          | Ok results =>
              let CWD := process_cwd env ++ sep env in
              let payload := getCheckPayload strip env results CWD in
              match checks_create octokit payload p with
              | (Throw msg, p1) => (Some msg, (p1, [ChecksCreate payload]))
              | (Ok _, p1) =>
                  match coverage_comment env with
                  | Throw msg => (Some msg, (p1, [ChecksCreate payload]))
                  | Ok false => (verdict results, (p1, [ChecksCreate payload]))
                  | Ok true =>
                      match getCoverageTable pctToString table results CWD with
                      | Throw msg => (Some msg, (p1, [ChecksCreate payload]))
                      | Ok JsFalse =>
                          (verdict results, (p1, [ChecksCreate payload]))
                      | Ok (JsString comment) =>
                          if JS.truthy comment then
                            match deletePreviousComments octokit (context env)
                                    (p1, [ChecksCreate payload]) with
                            | (Throw msg, st) => (Some msg, st)
                            | (Ok _, st) =>
                                match createComment octokit
                                        (getCommentPayload (context env) comment)
                                        st with
                                | (Throw msg, st') => (Some msg, st')
                                | (Ok _, st') => (verdict results, st')
                                end
                            end
                          else (verdict results, (p1, [ChecksCreate payload]))
                      end
                  end
              end
          end
      end.
Proof.
  unfold run, tokenOf, verdict.
  destruct (negb (JS.truthy _)); [reflexivity|].
  unfold runChecked, execJest, parseResults, shouldCommentCoverage, checksCreate.
  unfold Async.bind, Async.lift, Async.ret.
  destruct (getJestCommand env (RESULTS_FILE env)) as [cmd|msg]; [|reflexivity].
  destruct (results_document env) as [results|msg]; [|reflexivity].
  unfold Async.send at 1. cbv beta iota delta [fst snd app].
  destruct (checks_create octokit _ p) as [[[]|msg] p1]; [|reflexivity].
  destruct (coverage_comment env) as [[|]|msg]; cbv beta iota.
  - destruct (getCoverageTable pctToString table results _)
      as [[|comment]|msg]; cbv beta iota.
    + now destruct (success results).
    + destruct (JS.truthy comment); [|now destruct (success results)].
      destruct (deletePreviousComments octokit (context env) _)
        as [[units|msg] st]; [|reflexivity].
      destruct (createComment octokit _ st) as [[[]|msg] st']; [|reflexivity].
      now destruct (success results).
    + reflexivity.
  - now destruct (success results).
  - reflexivity.
Qed.

Lemma deletePreviousComments_result (ctx : Context) (st : P * list Request)
    (msg : string) (p' : P) :
  issues_listComments octokit (context_repo ctx) 100 (getPullId ctx) (fst st)
    = (Throw msg, p') ->
  deletePreviousComments octokit ctx st
  = (Throw msg,
     (p', (snd st ++ [IssuesListComments (context_repo ctx) 100 (getPullId ctx)])%list)).
Proof.
  intros Hlist.
  unfold deletePreviousComments, Async.bind, listComments, Async.send.
  now rewrite Hlist.
Qed.

Lemma deletionsFor_deletions (ctx : Context) (data : list IssueComment) :
  Forall (fun q => isDeletion q = true) (deletionsFor ctx data).
Proof.
  unfold deletionsFor. induction (filter isPreviousComment data); simpl;
    constructor; [reflexivity | assumption].
Qed.

(** The log after [deletePreviousComments]: the listing, then deletions. *)
Lemma deletePreviousComments_shape (ctx : Context) (st : P * list Request) :
  exists deletions,
    Forall (fun q => isDeletion q = true) deletions
    /\ snd (snd (deletePreviousComments octokit ctx st))
       = (snd st ++ IssuesListComments (context_repo ctx) 100 (getPullId ctx)
                    :: deletions)%list.
Proof.
  rewrite deletePreviousComments_log.
  destruct (fst (issues_listComments octokit _ _ _ _)) as [data|msg].
  - exists (deletionsFor ctx data). split;
      [apply deletionsFor_deletions | reflexivity].
  - exists []. split; [constructor | reflexivity].
Qed.

Lemma createComment_log (payload : CommentPayload) (st : P * list Request) :
  snd (snd (createComment octokit payload st))
  = (snd st ++ [IssuesCreateComment payload])%list.
Proof.
  unfold createComment, Async.send.
  now destruct (issues_createComment octokit payload (fst st)).
Qed.

(** X1.  Without a token the run stops at once: it reports
    [GITHUB_TOKEN not set.] and sends nothing.  The environment variable is
    replaced by the input only when it is undefined, so an environment
    variable set to the empty string stops the run whatever the input
    holds. *)
Theorem run_without_token (env : Env Pct) (st : P * list Request) :
  env_GITHUB_TOKEN env = Some EmptyString
  \/ (env_GITHUB_TOKEN env = None /\ input_GITHUB_TOKEN env = EmptyString) ->
  run pctToString strip table octokit env st
  = (Some "GITHUB_TOKEN not set.", st).
Proof.
  intros [Henv|[Henv Hinput]]; unfold run; rewrite Henv; [|rewrite Hinput];
    reflexivity.
Qed.

(** X2.  Whatever the environment and the platform, the requests of a run
    come in one order: none; or the check alone; or the check, the listing
    and deletions; or those and, last, one posting.  So there is at most
    one check and one posting, nothing precedes the check, and nothing is
    deleted before the listing or after the posting.  Whenever a request
    follows the check, the platform had accepted the check. *)
Theorem run_requests_in_order (env : Env Pct) (p : P) :
  InRunOrder (requestsOfRun pctToString strip table octokit env p)
  /\ (forall payload next rest,
        requestsOfRun pctToString strip table octokit env p
        = ChecksCreate payload :: next :: rest ->
        exists p1, checks_create octokit payload p = (Ok tt, p1)).
Proof.
  unfold requestsOfRun, InRunOrder. rewrite run_cases.
  destruct (negb (JS.truthy (tokenOf env)));
    [split; [now left | discriminate]|].
  destruct (getJestCommand env (RESULTS_FILE env)) as [cmd|msg];
    [|split; [now left | discriminate]].
  destruct (results_document env) as [results|msg];
    [|split; [now left | discriminate]].
  cbv zeta. set (payload := getCheckPayload strip env results _).
  destruct (checks_create octokit payload p) as [[[]|msg] p1] eqn:Hcheck;
    [|split; [right; exists payload; now left | discriminate]].
  assert (Haccepted : forall sent,
            (exists rest, sent = ChecksCreate payload :: rest) ->
            forall payload' next rest,
              sent = ChecksCreate payload' :: next :: rest ->
              exists p1, checks_create octokit payload' p = (Ok tt, p1)).
  { intros sent [rest0 ->] payload' next rest H. injection H as <- _.
    now exists p1. }
  destruct (coverage_comment env) as [[|]|msg];
    try (split; [right; exists payload; now left | discriminate]).
  destruct (getCoverageTable pctToString table results _) as [[|comment]|msg];
    try (split; [right; exists payload; now left | discriminate]).
  destruct (JS.truthy comment);
    [|split; [right; exists payload; now left | discriminate]].
  destruct (deletePreviousComments_shape (context env) (p1, [ChecksCreate payload]))
    as (deletions & Hdel & Hlog).
  destruct (deletePreviousComments octokit (context env) _) as [[units|msg] st];
    simpl in Hlog.
  - pose proof (createComment_log (getCommentPayload (context env) comment) st)
      as Hpost.
    rewrite Hlog in Hpost.
    assert (Hsent : snd (snd (let (e, st') := createComment octokit
                       (getCommentPayload (context env) comment) st in
                     match e with
                     | Ok _ => (verdict results, st')
                     | Throw msg => (Some msg, st')
                     end))
            = ChecksCreate payload
              :: IssuesListComments (context_repo (context env)) 100
                   (getPullId (context env))
              :: (deletions
                  ++ [IssuesCreateComment
                        (getCommentPayload (context env) comment)])%list).
    { destruct (createComment octokit _ st) as [[[]|msg] st']; simpl in *;
        now rewrite Hpost. }
    rewrite Hsent. split.
    + right. exists payload. right.
      exists (context_repo (context env)), (getPullId (context env)), deletions.
      split; [exact Hdel|]. right.
      now exists (getCommentPayload (context env) comment).
    + apply Haccepted. eexists. reflexivity.
  - simpl. rewrite Hlog. split.
    + right. exists payload. right.
      exists (context_repo (context env)), (getPullId (context env)), deletions.
      split; [exact Hdel|]. now left.
    + apply Haccepted. eexists. reflexivity.
Qed.

(** X3.  A run reports no failure only if the results document was read,
    says [success], and the check for it was sent first. *)
Theorem run_passes_only_on_success (env : Env Pct) (p : P) :
  fst (run pctToString strip table octokit env (p, [])) = None ->
  exists results rest,
    results_document env = Ok results
    /\ success results = true
    /\ requestsOfRun pctToString strip table octokit env p
       = ChecksCreate
           (getCheckPayload strip env results (process_cwd env ++ sep env))
         :: rest.
Proof.
  unfold requestsOfRun. rewrite run_cases.
  destruct (negb (JS.truthy (tokenOf env))); [discriminate|].
  destruct (getJestCommand env (RESULTS_FILE env)) as [cmd|msg]; [|discriminate].
  destruct (results_document env) as [results|msg]; [|discriminate].
  cbv zeta. set (payload := getCheckPayload strip env results _).
  assert (Hverdict : verdict results = None -> success results = true)
    by (unfold verdict; now destruct (success results)).
  destruct (checks_create octokit payload p) as [[[]|msg] p1]; [|discriminate].
  destruct (coverage_comment env) as [[|]|msg]; simpl; try discriminate.
  - destruct (getCoverageTable pctToString table results _)
      as [[|comment]|msg]; simpl; [| |discriminate].
    + intros H. exists results, []. now repeat split; try apply Hverdict.
    + destruct (JS.truthy comment); simpl.
      * destruct (deletePreviousComments_shape (context env)
                    (p1, [ChecksCreate payload])) as (deletions & _ & Hlog).
        destruct (deletePreviousComments octokit (context env) _)
          as [[units|msg] st]; simpl in Hlog; [|discriminate].
        pose proof (createComment_log
                      (getCommentPayload (context env) comment) st) as Hpost.
        rewrite Hlog in Hpost.
        destruct (createComment octokit _ st) as [[[]|msg] st']; simpl in *;
          [|discriminate].
        intros H. exists results. eexists. rewrite Hpost.
        now repeat split; try apply Hverdict.
      * intros H. exists results, []. now repeat split; try apply Hverdict.
  - intros H. exists results, []. now repeat split; try apply Hverdict.
Qed.

(** X4.  When one of the two switches does not parse, or the results
    document cannot be read, the run reports that message and has sent
    nothing: no check, no comment request.  The coverage switch is read
    first, then the changed-files switch, then the results document. *)
Theorem failure_before_check_sends_nothing (env : Env Pct) (p : P)
    (msg : string) :
  JS.truthy (tokenOf env) = true ->
  coverage_comment env = Throw msg
  \/ ((exists commenting, coverage_comment env = Ok commenting)
      /\ changes_only env = Throw msg)
  \/ ((exists commenting, coverage_comment env = Ok commenting)
      /\ (exists changed, changes_only env = Ok changed)
      /\ results_document env = Throw msg) ->
  run pctToString strip table octokit env (p, []) = (Some msg, (p, [])).
Proof.
  intros Htoken Hthrow. rewrite run_cases, Htoken. simpl negb. cbv iota.
  unfold getJestCommand, shouldCommentCoverage, shouldRunOnlyChangedFiles.
  destruct Hthrow as [-> | [[[commenting ->] ->]
                           | [[commenting ->] [[changed ->] ->]]]];
    reflexivity.
Qed.

(** X5.  When the platform rejects the check, the run reports that message
    and stops: the check is the only request it has sent. *)
Theorem rejected_check_stops_run (env : Env Pct) (p p1 : P)
    (results : FormattedTestResults Pct) (cmd msg : string) :
  JS.truthy (tokenOf env) = true ->
  getJestCommand env (RESULTS_FILE env) = Ok cmd ->
  results_document env = Ok results ->
  checks_create octokit
    (getCheckPayload strip env results (process_cwd env ++ sep env)) p
    = (Throw msg, p1) ->
  run pctToString strip table octokit env (p, [])
  = (Some msg,
     (p1, [ChecksCreate
             (getCheckPayload strip env results (process_cwd env ++ sep env))])).
Proof.
  intros Htoken Hcmd Hres Hcheck.
  rewrite run_cases, Htoken, Hcmd, Hres. simpl negb. cbv iota zeta.
  now rewrite Hcheck.
Qed.

(** X6.  With the coverage comment switched off, a run sends no request
    about comments, whatever the coverage map holds. *)
Theorem no_comment_requests_when_disabled (env : Env Pct) (p : P) :
  coverage_comment env = Ok false ->
  Forall (fun q => isCommentRequest q = false)
         (requestsOfRun pctToString strip table octokit env p).
Proof.
  intros Hcc. unfold requestsOfRun. rewrite run_cases, Hcc.
  destruct (negb (JS.truthy (tokenOf env))); [constructor|].
  destruct (getJestCommand env (RESULTS_FILE env)) as [cmd|msg]; [|constructor].
  destruct (results_document env) as [results|msg]; [|constructor].
  cbv zeta.
  destruct (checks_create octokit _ p) as [[[]|msg] p1]; repeat constructor.
Qed.

Lemma truthy_header (rest : string) : JS.truthy (COVERAGE_HEADER ++ rest) = true.
Proof. reflexivity. Qed.

Lemma getCoverageTable_header (results : FormattedTestResults Pct)
    (cwd comment : string) :
  getCoverageTable pctToString table results cwd = Ok (JsString comment) ->
  JS.truthy comment = true ->
  exists rest, comment = COVERAGE_HEADER ++ rest.
Proof.
  unfold getCoverageTable.
  destruct (coverageMap results) as [data|]; intros H Htruthy.
  - destruct (createCoverageMap data) as [[|entry covMap]|msg]; simpl in H;
      try discriminate.
    injection H as <-. eexists. reflexivity.
  - injection H as <-. discriminate.
Qed.

Lemma not_posting_of_deletion (deletions : list Request) :
  Forall (fun q => isDeletion q = true) deletions ->
  Forall (fun q => isPosting q = false) deletions.
Proof.
  apply Forall_impl. now intros [].
Qed.

(** X7.  When the listing or one of the deletions is rejected, the run
    reports that message and posts nothing; if the listing went through,
    every deletion has been sent all the same. *)
Theorem rejected_deletion_blocks_posting (env : Env Pct) (p p1 : P)
    (results : FormattedTestResults Pct) (cmd comment msg : string)
    (st : P * list Request) :
  JS.truthy (tokenOf env) = true ->
  getJestCommand env (RESULTS_FILE env) = Ok cmd ->
  results_document env = Ok results ->
  coverage_comment env = Ok true ->
  getCoverageTable pctToString table results (process_cwd env ++ sep env)
    = Ok (JsString comment) ->
  JS.truthy comment = true ->
  checks_create octokit
    (getCheckPayload strip env results (process_cwd env ++ sep env)) p
    = (Ok tt, p1) ->
  let check :=
    ChecksCreate (getCheckPayload strip env results (process_cwd env ++ sep env)) in
  deletePreviousComments octokit (context env) (p1, [check]) = (Throw msg, st) ->
  run pctToString strip table octokit env (p, []) = (Some msg, st)
  /\ Forall (fun q => isPosting q = false) (snd st)
  /\ (forall data p2,
        issues_listComments octokit (context_repo (context env)) 100
          (getPullId (context env)) p1 = (Ok data, p2) ->
        snd st
        = check
          :: IssuesListComments (context_repo (context env)) 100
               (getPullId (context env))
          :: deletionsFor (context env) data).
Proof.
  intros Htoken Hcmd Hres Hcc Htable Htruthy Hcheck check Hdel.
  split; [|split].
  - rewrite run_cases, Htoken, Hcmd, Hres. simpl negb. cbv iota zeta.
    rewrite Hcheck, Hcc, Htable, Htruthy. fold check. now rewrite Hdel.
  - destruct (deletePreviousComments_shape (context env) (p1, [check]))
      as (deletions & Hdeletions & Hlog).
    rewrite Hdel in Hlog. simpl in Hlog. rewrite Hlog.
    constructor; [reflexivity|]. constructor; [reflexivity|].
    now apply not_posting_of_deletion.
  - intros data p2 Hlist.
    pose proof (deletePreviousComments_log octokit (context env) (p1, [check]))
      as Hlog.
    rewrite Hdel in Hlog. simpl in Hlog. now rewrite Hlist in Hlog.
Qed.

(** X8.  Whatever a run posts starts with the coverage header and goes to
    the repository and the issue that the listing of a later run reads:
    once the platform files it under [github-actions[bot]], the filter of
    [deletePreviousComments] takes it for a previous comment. *)
Theorem posted_comment_is_recognised (env : Env Pct) (p : P)
    (posted : CommentPayload) :
  In (IssuesCreateComment posted)
     (requestsOfRun pctToString strip table octokit env p) ->
  (exists rest, body posted = COVERAGE_HEADER ++ rest)
  /\ comment_repo posted = context_repo (context env)
  /\ issue_number posted = getPullId (context env)
  /\ forall i,
       isPreviousComment {| id := i;
                            user_login := "github-actions[bot]";
                            comment_body := body posted |} = true.
Proof.
  unfold requestsOfRun. rewrite run_cases.
  assert (Hnone : In (IssuesCreateComment posted) [] -> False) by (intros []).
  assert (Hone : forall payload,
            In (IssuesCreateComment posted) [ChecksCreate payload] -> False)
    by (intros payload [H|[]]; discriminate).
  destruct (negb (JS.truthy (tokenOf env))); [intros H; now elim Hnone|].
  destruct (getJestCommand env (RESULTS_FILE env)) as [cmd|msg];
    [|intros H; now elim Hnone].
  destruct (results_document env) as [results|msg]; [|intros H; now elim Hnone].
  cbv zeta. set (payload := getCheckPayload strip env results _).
  destruct (checks_create octokit payload p) as [[[]|msg] p1];
    [|intros H; now elim (Hone payload)].
  destruct (coverage_comment env) as [[|]|msg];
    try (intros H; now elim (Hone payload)).
  destruct (getCoverageTable pctToString table results _)
    as [[|comment]|msg] eqn:Htable;
    [intros H; now elim (Hone payload) | | intros H; now elim (Hone payload)].
  destruct (JS.truthy comment) eqn:Htruthy; [|intros H; now elim (Hone payload)].
  destruct (deletePreviousComments_shape (context env) (p1, [ChecksCreate payload]))
    as (deletions & Hdeletions & Hlog).
  assert (Hdel : In (IssuesCreateComment posted) deletions -> False).
  { intros Hin. apply not_posting_of_deletion in Hdeletions.
    rewrite Forall_forall in Hdeletions. now specialize (Hdeletions _ Hin). }
  assert (Hposted : In (IssuesCreateComment posted) (snd
            (snd (createComment octokit (getCommentPayload (context env) comment)
                    (snd (deletePreviousComments octokit (context env)
                            (p1, [ChecksCreate payload]))))))
          -> posted = getCommentPayload (context env) comment).
  { rewrite createComment_log, Hlog. simpl. intros [H|[H|H]]; try discriminate.
    apply in_app_or in H. destruct H as [H|[H|[]]]; [now elim Hdel|].
    now injection H. }
  intros Hin.
  assert (posted = getCommentPayload (context env) comment) as ->.
  { destruct (deletePreviousComments octokit (context env) _)
      as [[units|msg] st]; simpl in *.
    - apply Hposted.
      now destruct (createComment octokit _ st) as [[[]|msg] st'].
    - rewrite Hlog in Hin. destruct Hin as [H|[H|H]]; try discriminate.
      now elim Hdel. }
  destruct (getCoverageTable_header results _ comment Htable Htruthy) as [rest ->].
  unfold getCommentPayload. cbn [body comment_repo issue_number].
  split; [now exists rest|]. split; [reflexivity|]. split; [reflexivity|].
  intros i. unfold isPreviousComment, JS.startsWith.
  cbn [comment_body user_login].
  now rewrite StringFacts.prefix_append.
Qed.

(** X9.  With the coverage comment switched on and every request
    accepted, a run over a coverage table sends exactly the check, the
    listing, one deletion per previous comment of the action, in the order
    of the listing, and the posting of the table; it reports a failure
    exactly when the results say the tests failed. *)
Theorem accepted_run_requests (env : Env Pct) (p p1 p2 p3 : P)
    (results : FormattedTestResults Pct) (cmd comment : string)
    (data : list IssueComment) (units : list unit) (st : P * list Request) :
  JS.truthy (tokenOf env) = true ->
  getJestCommand env (RESULTS_FILE env) = Ok cmd ->
  results_document env = Ok results ->
  coverage_comment env = Ok true ->
  getCoverageTable pctToString table results (process_cwd env ++ sep env)
    = Ok (JsString comment) ->
  JS.truthy comment = true ->
  checks_create octokit
    (getCheckPayload strip env results (process_cwd env ++ sep env)) p
    = (Ok tt, p1) ->
  let check :=
    ChecksCreate (getCheckPayload strip env results (process_cwd env ++ sep env)) in
  issues_listComments octokit (context_repo (context env)) 100
    (getPullId (context env)) p1 = (Ok data, p2) ->
  deletePreviousComments octokit (context env) (p1, [check]) = (Ok units, st) ->
  issues_createComment octokit (getCommentPayload (context env) comment) (fst st)
    = (Ok tt, p3) ->
  run pctToString strip table octokit env (p, [])
  = (verdict results,
     (p3,
      (check
       :: IssuesListComments (context_repo (context env)) 100
            (getPullId (context env))
       :: deletionsFor (context env) data
       ++ [IssuesCreateComment (getCommentPayload (context env) comment)])%list)).
Proof.
  intros Htoken Hcmd Hres Hcc Htable Htruthy Hcheck check Hlist Hdel Hpost.
  rewrite run_cases, Htoken, Hcmd, Hres. simpl negb. cbv iota zeta.
  rewrite Hcheck, Hcc, Htable, Htruthy. fold check. rewrite Hdel.
  pose proof (deletePreviousComments_log octokit (context env) (p1, [check]))
    as Hlog.
  rewrite Hdel in Hlog. simpl in Hlog. rewrite Hlist in Hlog. simpl in Hlog.
  unfold createComment, Async.send. rewrite Hpost, Hlog. reflexivity.
Qed.

End RunProperties.

(** ** More on strings: separators, numerals, white space *)

Module TextFacts.

Lemma lacks_append (c : ascii) (a b : string) :
  lacks c (a ++ b) = lacks c a && lacks c b.
Proof.
  induction a as [|d a IH]; simpl; [reflexivity|].
  now rewrite IH, andb_assoc.
Qed.

(** Two texts cut at the first [c] agree on both sides of the cut. *)
Lemma split_at_char (c : ascii) (a b x y : string) :
  lacks c a = true -> lacks c b = true ->
  a ++ String c x = b ++ String c y -> a = b /\ x = y.
Proof.
  revert b. induction a as [|d a IH]; intros [|e b] Ha Hb H; simpl in *.
  - injection H as H. now split.
  - injection H as Hc _. subst e. now rewrite Ascii.eqb_refl in Hb.
  - injection H as Hc _. subst d. now rewrite Ascii.eqb_refl in Ha.
  - injection H as Hd H. subst e.
    apply andb_true_iff in Ha, Hb.
    destruct (IH b (proj2 Ha) (proj2 Hb) H) as [-> ->]. now split.
Qed.

Lemma allNumeral_uint (d : Decimal.uint) :
  allNumeral (NilEmpty.string_of_uint d) = true.
Proof. induction d; simpl; try assumption; reflexivity. Qed.

Lemma allNumeral_toString (n : Z) : allNumeral (JS.toString n) = true.
Proof.
  unfold JS.toString. destruct (Z.to_int n) as [d|d]; simpl;
    apply allNumeral_uint.
Qed.

Lemma allNumeral_lacks (c : ascii) (s : string) :
  isNumeral c = false -> allNumeral s = true -> lacks c s = true.
Proof.
  intros Hc. induction s as [|d s IH]; simpl; [reflexivity|].
  intros H. apply andb_true_iff in H. destruct H as [Hd Hs].
  rewrite (IH Hs), andb_true_r.
  destruct (Ascii.eqb_spec d c) as [->|]; [congruence | reflexivity].
Qed.

Lemma toString_lacks (c : ascii) (n : Z) :
  isNumeral c = false -> lacks c (JS.toString n) = true.
Proof. intros Hc. apply allNumeral_lacks; [exact Hc | apply allNumeral_toString]. Qed.

(** A text of numerals followed by [c], not a numeral, is cut at [c]. *)
Lemma toString_cut (c : ascii) (n m : Z) (x y : string) :
  isNumeral c = false ->
  JS.toString n ++ String c x = JS.toString m ++ String c y ->
  n = m /\ x = y.
Proof.
  intros Hc H.
  destruct (split_at_char c _ _ x y (toString_lacks c n Hc) (toString_lacks c m Hc) H)
    as [Hnm Hxy].
  split; [now apply StringFacts.toString_inj | exact Hxy].
Qed.

Lemma trimRight_allWhiteSpace (ws : string) :
  JS.allWhiteSpace ws = true -> JS.trimRight ws = EmptyString.
Proof.
  induction ws as [|c ws IH]; simpl; [reflexivity|].
  intros H. apply andb_true_iff in H. destruct H as [Hc Hws].
  now rewrite (IH Hws), Hc.
Qed.

Lemma trimRight_append_ws (s ws : string) :
  JS.allWhiteSpace ws = true -> JS.trimRight (s ++ ws) = JS.trimRight s.
Proof.
  intros Hws. induction s as [|c s IH]; simpl.
  - now apply trimRight_allWhiteSpace.
  - now rewrite IH.
Qed.

Lemma allWhiteSpace_append (a b : string) :
  JS.allWhiteSpace (a ++ b) = JS.allWhiteSpace a && JS.allWhiteSpace b.
Proof.
  induction a as [|c a IH]; simpl; [reflexivity|].
  now rewrite IH, andb_assoc.
Qed.

Lemma allWhiteSpace_join (xs : list string) :
  Forall (fun s => JS.allWhiteSpace s = true) xs ->
  JS.allWhiteSpace (JS.join JS.LF xs) = true.
Proof.
  unfold JS.join. induction 1 as [|x xs Hx Hxs IH]; [reflexivity|].
  destruct xs as [|y xs]; [exact Hx|].
  change (String.concat JS.LF (x :: y :: xs))
    with (x ++ JS.LF ++ String.concat JS.LF (y :: xs)).
  rewrite !allWhiteSpace_append, Hx, IH. reflexivity.
Qed.

Lemma trimRight_idempotent (s : string) :
  JS.trimRight (JS.trimRight s) = JS.trimRight s.
Proof.
  induction s as [|c s IH]; simpl; [reflexivity|].
  destruct (JS.trimRight s) as [|d t] eqn:E.
  - destruct (JS.isWhiteSpace c) eqn:Hc; simpl; [reflexivity | now rewrite Hc].
  - simpl in *. now rewrite IH.
Qed.

(** Text without dollar signs is substituted as it is. *)
Lemma GetSubstitution_plain (matched before after template : string) :
  lacks "$" template = true ->
  JS.GetSubstitution matched before after template = template.
Proof.
  induction template as [|c r IH]; simpl; [reflexivity|].
  intros H. apply andb_true_iff in H. destruct H as [Hc Hr].
  apply negb_true_iff in Hc. rewrite Hc. now rewrite (IH Hr).
Qed.

(** What [split_at_first] finds is an occurrence of the pattern. *)
Lemma split_at_first_sound (pat s before after : string) :
  JS.split_at_first pat s = Some (before, after) ->
  s = before ++ pat ++ after.
Proof.
  revert before. induction s as [|c s IH]; intros before;
    rewrite StringFacts.split_at_first_unfold.
  - destruct (String.prefix pat EmptyString) eqn:Hp; [|discriminate].
    intros H. injection H as <- <-.
    apply StringFacts.prefix_inv in Hp. destruct Hp as [rest Hp].
    destruct pat; [reflexivity | discriminate].
  - destruct (String.prefix pat (String c s)) eqn:Hp.
    + intros H. injection H as <- <-.
      apply StringFacts.prefix_inv in Hp. destruct Hp as [rest Hp].
      rewrite Hp, StringFacts.drop_append. reflexivity.
    + destruct (JS.split_at_first pat s) as [[b a]|]; [|discriminate].
      intros H. injection H as <- <-. simpl. now rewrite (IH b eq_refl).
Qed.

Lemma prefix_cons_neq (c d : ascii) (a b : string) :
  c <> d -> String.prefix (String c a) (String d b) = false.
Proof.
  intros Hneq. simpl. destruct (ascii_dec c d); [contradiction | reflexivity].
Qed.

(** The first occurrence of the placeholder, when no brace precedes it. *)
Lemma split_at_placeholder (before after : string) :
  lacks "{" before = true ->
  JS.split_at_first "{{args}}" (before ++ "{{args}}" ++ after)
  = Some (before, after).
Proof.
  induction before as [|c before IH]; intros H.
  - change (EmptyString ++ "{{args}}" ++ after) with ("{{args}}" ++ after).
    now rewrite StringFacts.split_at_first_unfold, StringFacts.prefix_append,
      StringFacts.drop_append.
  - simpl in H. apply andb_true_iff in H. destruct H as [Hc Hb].
    apply negb_true_iff in Hc.
    rewrite StringFacts.split_at_first_unfold.
    assert (Hp : String.prefix "{{args}}" (String c before ++ "{{args}}" ++ after)
                 = false).
    { apply (prefix_cons_neq "{" c "{args}}" (before ++ "{{args}}" ++ after)).
      intros <-. discriminate Hc. }
    rewrite Hp.
    change (String c before ++ "{{args}}" ++ after)
      with (String c (before ++ "{{args}}" ++ after)).
    cbv iota. now rewrite (IH Hb).
Qed.

End TextFacts.

(** ** The jest command, the payload and the texts, case by case *)

Section FunctionProperties.

Context {Pct : Type}.
Variable pctToString : Pct -> string.
Variable strip : string -> string.
Variable table : list (list string) -> list string -> string.

Lemma createCoverageMap_returns (data : CoverageMapData Pct)
    (covMap : CoverageMap Pct) :
  createCoverageMap data = Ok covMap ->
  allFileCoverage data /\ List.length covMap = List.length data.
Proof.
  revert covMap.
  induction data as [|[filename [summary|complaint]] data IH]; intros covMap H;
    simpl in H.
  - injection H as <-. split; [constructor | reflexivity].
  - destruct (createCoverageMap data) as [rest|msg]; [|discriminate].
    injection H as <-. destruct (IH rest eq_refl) as [Hall Hlen].
    split; [now constructor | simpl; now rewrite Hlen].
  - discriminate.
Qed.

Lemma createCoverageMap_throws (data : CoverageMapData Pct) (msg : string) :
  createCoverageMap data = Throw msg -> ~ allFileCoverage data.
Proof.
  intros Hthrow Hall.
  destruct (createCoverageMap_accepts data Hall) as (covMap & Hok & _).
  rewrite Hok in Hthrow. discriminate.
Qed.

(** X10.  [getCoverageTable] returns something to post exactly when the
    results carry a coverage map with at least one entry, all of them file
    coverage data; it throws exactly when the map has an entry that is
    not.  Without a map it returns the empty string, and any string it
    returns is empty or starts with the coverage header, whatever the
    table renderer returns. *)
Theorem coverage_table_truthy_iff (results : FormattedTestResults Pct)
    (cwd : string) :
  ((exists coverage,
      getCoverageTable pctToString table results cwd = Ok coverage
      /\ truthyResult coverage = true)
   <-> exists data,
         coverageMap results = Some data /\ data <> [] /\ allFileCoverage data)
  /\ ((exists msg, getCoverageTable pctToString table results cwd = Throw msg)
      <-> exists data, coverageMap results = Some data /\ ~ allFileCoverage data)
  /\ (coverageMap results = None ->
      getCoverageTable pctToString table results cwd = Ok (JsString EmptyString))
  /\ (forall comment,
        getCoverageTable pctToString table results cwd = Ok (JsString comment) ->
        comment = EmptyString \/ exists rest, comment = COVERAGE_HEADER ++ rest).
Proof.
  unfold getCoverageTable.
  destruct (coverageMap results) as [data|].
  - destruct (createCoverageMap data) as [covMap|msg] eqn:Hmap.
    + destruct (createCoverageMap_returns data covMap Hmap) as [Hall Hlen].
      destruct covMap as [|entry covMap]; simpl.
      * assert (data = []) as -> by (now destruct data).
        split; [split|split; [split|split]].
        -- intros (coverage & H & Htruthy). injection H as <-. discriminate.
        -- intros (data & H & Hne & _). injection H as <-. now elim Hne.
        -- intros [msg H]. discriminate.
        -- intros (data & H & Hnot). injection H as <-. now elim Hnot.
        -- discriminate.
        -- discriminate.
      * split; [split|split; [split|split]].
        -- intros _. exists data. repeat split; try assumption.
           intros ->. discriminate Hlen.
        -- intros _. eexists. split; reflexivity.
        -- intros [msg H]. discriminate.
        -- intros (data' & H & Hnot). injection H as <-. now elim Hnot.
        -- discriminate.
        -- intros comment H. injection H as <-. right. eexists. reflexivity.
    + pose proof (createCoverageMap_throws data msg Hmap) as Hnot.
      split; [split|split; [split|split]].
      * intros (coverage & H & _). discriminate.
      * intros (data' & H & _ & Hall). injection H as <-. now elim Hnot.
      * intros _. now exists data.
      * intros _. now exists msg.
      * discriminate.
      * discriminate.
  - split; [split|split; [split|split]].
    + intros (coverage & H & Htruthy). injection H as <-. discriminate.
    + intros (data & H & _). discriminate.
    + intros [msg H]. discriminate.
    + intros (data & H & _). discriminate.
    + reflexivity.
    + intros comment H. injection H as <-. now left.
Qed.

(** The options [getJestCommand] builds. *)
Lemma jest_options_plain (resultsFile : string) (commenting changed : bool)
    (pr : option PullRequest) :
  lacks "$" resultsFile = true ->
  (forall r, pr = Some r -> lacks "$" (base_ref r) = true) ->
  lacks "$"
    ("--testLocationInResults --json --outputFile=" ++ JS.DQUOTE
     ++ resultsFile ++ JS.DQUOTE
     ++ (if commenting then " --coverage" else EmptyString)
     ++ match pr with
        | Some r => if changed && JS.truthy (base_ref r)
                    then " --changedSince=" ++ base_ref r
                    else EmptyString
        | None => EmptyString
        end) = true.
Proof.
  intros Hfile Hpr.
  rewrite !TextFacts.lacks_append, Hfile.
  assert (Hcov : lacks "$" (if commenting then " --coverage" else EmptyString)
                 = true) by now destruct commenting.
  rewrite Hcov.
  destruct pr as [r|]; [|reflexivity].
  destruct (changed && JS.truthy (base_ref r)); [|reflexivity].
  rewrite TextFacts.lacks_append, (Hpr r eq_refl). reflexivity.
Qed.

(** X11.  When the test command has no [{{args}}] placeholder, the jest
    command is the test command as it is: none of the options, not even
    the output file, reaches jest. *)
Theorem jest_command_without_placeholder (env : Env Pct) (resultsFile : string)
    (commenting changed : bool) :
  coverage_comment env = Ok commenting ->
  changes_only env = Ok changed ->
  (forall before after,
     input_test_command env <> before ++ "{{args}}" ++ after) ->
  getJestCommand env resultsFile = Ok (input_test_command env).
Proof.
  intros Hcc Hco Habsent.
  unfold getJestCommand, shouldCommentCoverage, shouldRunOnlyChangedFiles.
  rewrite Hcc, Hco. f_equal. apply StringFacts.replace_absent.
  destruct (JS.split_at_first "{{args}}" (input_test_command env))
    as [[before after]|] eqn:E; [|reflexivity].
  elim (Habsent before after). now apply TextFacts.split_at_first_sound.
Qed.

(** X12.  When the test command has the placeholder, with no brace before
    it, and neither the results file nor the base reference holds a dollar
    sign, the jest command is the test command with the options in place
    of that placeholder: the three fixed options, then [--coverage] when
    the coverage comment is on, then [--changedSince] when changed files
    only are asked for and the pull request names a base reference. *)
Theorem jest_command_splices_options (env : Env Pct)
    (resultsFile before after : string) (commenting changed : bool) :
  coverage_comment env = Ok commenting ->
  changes_only env = Ok changed ->
  input_test_command env = before ++ "{{args}}" ++ after ->
  lacks "{" before = true ->
  lacks "$" resultsFile = true ->
  (forall pr, pull_request (context env) = Some pr ->
              lacks "$" (base_ref pr) = true) ->
  getJestCommand env resultsFile
  = Ok (before
        ++ ("--testLocationInResults --json --outputFile=" ++ JS.DQUOTE
            ++ resultsFile ++ JS.DQUOTE
            ++ (if commenting then " --coverage" else EmptyString)
            ++ match pull_request (context env) with
               | Some pr => if changed && JS.truthy (base_ref pr)
                            then " --changedSince=" ++ base_ref pr
                            else EmptyString
               | None => EmptyString
               end)
        ++ after).
Proof.
  intros Hcc Hco Hcmd Hbrace Hfile Hpr.
  pose proof (jest_options_plain resultsFile commenting changed
                (pull_request (context env)) Hfile Hpr) as Hplain.
  unfold getJestCommand, shouldCommentCoverage, shouldRunOnlyChangedFiles.
  rewrite Hcc, Hco. f_equal. unfold JS.replace.
  rewrite Hcmd, (TextFacts.split_at_placeholder before after Hbrace).
  assert (Hopts :
    match pull_request (context env) with
    | Some pr =>
        if changed && JS.truthy (base_ref pr)
        then
          (if commenting
           then ("--testLocationInResults --json --outputFile=" ++ JS.DQUOTE
                 ++ resultsFile ++ JS.DQUOTE) ++ " --coverage"
           else "--testLocationInResults --json --outputFile=" ++ JS.DQUOTE
                ++ resultsFile ++ JS.DQUOTE)
          ++ " --changedSince=" ++ base_ref pr
        else
          if commenting
          then ("--testLocationInResults --json --outputFile=" ++ JS.DQUOTE
                ++ resultsFile ++ JS.DQUOTE) ++ " --coverage"
          else "--testLocationInResults --json --outputFile=" ++ JS.DQUOTE
               ++ resultsFile ++ JS.DQUOTE
    | None =>
        if commenting
        then ("--testLocationInResults --json --outputFile=" ++ JS.DQUOTE
              ++ resultsFile ++ JS.DQUOTE) ++ " --coverage"
        else "--testLocationInResults --json --outputFile=" ++ JS.DQUOTE
             ++ resultsFile ++ JS.DQUOTE
    end
    = "--testLocationInResults --json --outputFile=" ++ JS.DQUOTE
      ++ resultsFile ++ JS.DQUOTE
      ++ (if commenting then " --coverage" else EmptyString)
      ++ match pull_request (context env) with
         | Some pr => if changed && JS.truthy (base_ref pr)
                      then " --changedSince=" ++ base_ref pr
                      else EmptyString
         | None => EmptyString
         end).
  { destruct (pull_request (context env)) as [pr|];
      [destruct (changed && JS.truthy (base_ref pr))|];
      destruct commenting;
      repeat rewrite ?StringFacts.append_assoc, ?StringFacts.append_nil_r;
      reflexivity. }
  rewrite Hopts. now rewrite TextFacts.GetSubstitution_plain.
Qed.

(** X13.  [asMarkdownCode] does not see white space at the end of its
    argument, and two arguments give the same block exactly when they
    agree up to such white space. *)
Theorem asMarkdownCode_up_to_trailing_space (a b ws : string) :
  (JS.allWhiteSpace ws = true -> asMarkdownCode (a ++ ws) = asMarkdownCode a)
  /\ (asMarkdownCode a = asMarkdownCode b <-> JS.trimRight a = JS.trimRight b).
Proof.
  unfold asMarkdownCode. split; [|split].
  - intros Hws. now rewrite TextFacts.trimRight_append_ws.
  - intros H. do 2 apply StringFacts.append_inv_head in H.
    now apply StringFacts.append_inv_tail in H.
  - now intros ->.
Qed.

(** X14.  A failed run whose file results have no message, or messages of
    white space only after stripping, still has a text: the fenced block
    with nothing in it. *)
Theorem failure_text_blank_messages (results : FormattedTestResults Pct) :
  success results = false ->
  Forall (fun file => JS.allWhiteSpace (strip (message file)) = true)
         (testResults results) ->
  getOutputText strip results = Some ("```" ++ JS.LF ++ JS.LF ++ "```").
Proof.
  intros Hfail Hblank. unfold getOutputText, asMarkdownCode. rewrite Hfail.
  rewrite TextFacts.trimRight_allWhiteSpace; [reflexivity|].
  apply TextFacts.allWhiteSpace_join.
  induction Hblank as [|file files Hfile _ IH]; simpl; [constructor|].
  destruct (JS.truthy (strip (message file))); [constructor|]; assumption.
Qed.

(** X15.  The check payload is always [completed]; it is attached to the
    head commit of the pull request when there is one and to the commit of
    the event otherwise; its conclusion is [success] exactly when the
    results say so, and a payload concluded as [success] has the passing
    title, no text and no annotation. *)
Theorem check_payload_consistent (env : Env Pct)
    (results : FormattedTestResults Pct) (cwd : string) :
  let payload := getCheckPayload strip env results cwd in
  check_status payload = Some "completed"
  /\ check_repo payload = context_repo (context env)
  /\ check_name payload = input_command_name env
  /\ (forall pr, pull_request (context env) = Some pr ->
                 head_sha payload = pr_head_sha pr)
  /\ (pull_request (context env) = None -> head_sha payload = sha (context env))
  /\ (conclusion payload = Some "success" <-> success results = true)
  /\ (conclusion payload = Some "failure" <-> success results = false)
  /\ (conclusion payload = Some "success" ->
      out_title (output payload) = "Jest tests passed"
      /\ text (output payload) = None
      /\ annotations (output payload) = []).
Proof.
  intros payload. unfold payload, getCheckPayload, getSha, getOutputText,
    getAnnotations. simpl.
  repeat split; try (intros pr ->; reflexivity); try (intros ->; reflexivity);
    destruct (success results); try reflexivity; try discriminate.
Qed.

End FunctionProperties.

(** ** Reading the summary back *)

Section SummaryProperties.

Context {Pct : Type}.
Variable strip : string -> string.

Lemma append_inv_same_tail_length (x y r r' : string) :
  String.length r = String.length r' -> x ++ r = y ++ r' -> x = y /\ r = r'.
Proof.
  intros Hlen H. apply StringFacts.append_inv_same_length; [|exact H].
  apply (f_equal String.length) in H.
  rewrite !StringFacts.length_append in H. lia.
Qed.

(** A text of numerals does not start the failure summary. *)
Lemma toString_not_failed (n : Z) (x y : string) :
  JS.toString n ++ String " " x <> String "F" y.
Proof.
  pose proof (TextFacts.toString_lacks "F" n eq_refl) as Hlacks.
  destruct (JS.toString n) as [|c r]; simpl; intros H.
  - discriminate H.
  - injection H as -> _. discriminate Hlacks.
Qed.

Lemma success_summary_cut (n k n' k' : Z) (pl pl' : string) :
  JS.toString n ++ " tests passing in " ++ JS.toString k ++ " suite" ++ pl ++ "."
  = JS.toString n' ++ " tests passing in " ++ JS.toString k' ++ " suite"
    ++ pl' ++ "." ->
  n = n' /\ k = k'.
Proof.
  intros H.
  destruct (TextFacts.toString_cut " " n n'
              ("tests passing in " ++ JS.toString k ++ " suite" ++ pl ++ ".")
              ("tests passing in " ++ JS.toString k' ++ " suite" ++ pl' ++ ".")
              eq_refl H) as [Hn H1].
  apply StringFacts.append_inv_head in H1.
  destruct (TextFacts.toString_cut " " k k'
              ("suite" ++ pl ++ ".") ("suite" ++ pl' ++ ".") eq_refl H1)
    as [Hk _].
  now split.
Qed.

Lemma failure_summary_cut (a b d a' b' d' : Z) :
  "Failed tests: " ++ JS.toString a ++ "/" ++ JS.toString b
  ++ ". Failed suites: " ++ JS.toString a ++ "/" ++ JS.toString d ++ "."
  = "Failed tests: " ++ JS.toString a' ++ "/" ++ JS.toString b'
    ++ ". Failed suites: " ++ JS.toString a' ++ "/" ++ JS.toString d' ++ "." ->
  a = a' /\ b = b' /\ d = d'.
Proof.
  intros H. apply StringFacts.append_inv_head in H.
  destruct (TextFacts.toString_cut "/" a a' _ _ eq_refl H) as [Ha H1].
  destruct (TextFacts.toString_cut "." b b'
              (" Failed suites: " ++ JS.toString a ++ "/" ++ JS.toString d ++ ".")
              (" Failed suites: " ++ JS.toString a' ++ "/" ++ JS.toString d' ++ ".")
              eq_refl H1) as [Hb H2].
  apply StringFacts.append_inv_head in H2.
  destruct (TextFacts.toString_cut "/" a a' _ _ eq_refl H2) as [_ H3].
  destruct (TextFacts.toString_cut "." d d' EmptyString EmptyString eq_refl H3)
    as [Hd _].
  now repeat split.
Qed.

(** X16.  The summary can be read back: two payloads with the same
    summary come from results that agree on [success] and, for a success,
    on the passed tests and suites; for a failure, on the failed tests,
    the total of tests and the total of suites. *)
Theorem summary_determines_counts (env env' : Env Pct)
    (results results' : FormattedTestResults Pct) (cwd cwd' : string) :
  summary (output (getCheckPayload strip env results cwd))
  = summary (output (getCheckPayload strip env' results' cwd')) ->
  success results = success results'
  /\ (success results = true ->
      numPassedTests results = numPassedTests results'
      /\ numPassedTestSuites results = numPassedTestSuites results')
  /\ (success results = false ->
      numFailedTests results = numFailedTests results'
      /\ numTotalTests results = numTotalTests results'
      /\ numTotalTestSuites results = numTotalTestSuites results').
Proof.
  rewrite !summary_of_payload.
  destruct (success results), (success results'); intros H.
  - split; [reflexivity|]. split; [|discriminate].
    intros _. exact (success_summary_cut _ _ _ _ _ _ H).
  - now elim (toString_not_failed _ _ _ H).
  - symmetry in H. now elim (toString_not_failed _ _ _ H).
  - split; [reflexivity|]. split; [discriminate|].
    intros _. exact (failure_summary_cut _ _ _ _ _ _ H).
Qed.

Lemma ends_differ (x y : string) (c d : ascii) :
  c <> d -> x ++ String c "." <> y ++ String d ".".
Proof.
  intros Hneq H.
  destruct (append_inv_same_tail_length x y (String c ".") (String d ".")
              eq_refl H) as [_ Hr].
  injection Hr as Hcd. contradiction.
Qed.

(** X17.  The summary of a successful run ends in [suites.] exactly when
    more than one suite passed, and in [suite.] otherwise, also for no
    suite at all. *)
Theorem success_summary_suites_wording (env : Env Pct)
    (results : FormattedTestResults Pct) (cwd : string) :
  success results = true ->
  ((exists front,
      summary (output (getCheckPayload strip env results cwd))
      = front ++ " suites.")
   <-> 1 < numPassedTestSuites results)
  /\ ((exists front,
         summary (output (getCheckPayload strip env results cwd))
         = front ++ " suite.")
      <-> numPassedTestSuites results <= 1).
Proof.
  intros Hok. rewrite summary_of_payload, Hok.
  set (n := JS.toString (numPassedTests results)).
  set (k := JS.toString (numPassedTestSuites results)).
  destruct (Z.gtb_spec (numPassedTestSuites results) 1) as [Hgt|Hle].
  - assert (Hs : n ++ " tests passing in " ++ k ++ " suite" ++ "s" ++ "."
                 = (n ++ " tests passing in " ++ k) ++ " suites.")
      by (now rewrite !StringFacts.append_assoc).
    rewrite Hs. split; split.
    + intros _. lia.
    + intros _. now exists (n ++ " tests passing in " ++ k).
    + intros [front H]. exfalso.
      apply (ends_differ ((n ++ " tests passing in " ++ k) ++ " suite")
                         (front ++ " suit") "s" "e"); [discriminate|].
      rewrite !StringFacts.append_assoc. rewrite !StringFacts.append_assoc in H.
      exact H.
    + lia.
  - assert (Hs : n ++ " tests passing in " ++ k ++ " suite" ++ EmptyString ++ "."
                 = (n ++ " tests passing in " ++ k) ++ " suite.")
      by (now rewrite !StringFacts.append_assoc).
    rewrite Hs. split; split.
    + intros [front H]. exfalso.
      apply (ends_differ ((n ++ " tests passing in " ++ k) ++ " suit")
                         (front ++ " suite") "e" "s"); [discriminate|].
      rewrite !StringFacts.append_assoc. rewrite !StringFacts.append_assoc in H.
      exact H.
    + lia.
    + intros _. lia.
    + intros _. now exists (n ++ " tests passing in " ++ k).
Qed.

End SummaryProperties.

(** ** Test commands without placeholder *)

(** Where the pattern occurs, [split_at_first] finds an occurrence. *)
Lemma split_at_first_complete (pat before after : string) :
  JS.split_at_first pat (before ++ pat ++ after) <> None.
Proof.
  induction before as [|c before IH]; rewrite StringFacts.split_at_first_unfold.
  - change (EmptyString ++ pat ++ after) with (pat ++ after).
    now rewrite StringFacts.prefix_append.
  - destruct (String.prefix pat (String c before ++ pat ++ after));
      [discriminate|].
    change (String c before ++ pat ++ after)
      with (String c (before ++ pat ++ after)).
    cbv iota.
    destruct (JS.split_at_first pat (before ++ pat ++ after)) as [[b a]|];
      [discriminate | now elim IH].
Qed.

Lemma no_placeholder (s : string) :
  JS.split_at_first "{{args}}" s = None ->
  forall before after, s <> before ++ "{{args}}" ++ after.
Proof.
  intros Hnone before after ->.
  now elim (split_at_first_complete "{{args}}" before after).
Qed.

(** ** The further properties at work on the samples *)

Lemma run_without_token_witness :
  env_GITHUB_TOKEN (emptyTokenEnv (failingRun None)) = Some EmptyString
  /\ input_GITHUB_TOKEN (emptyTokenEnv (failingRun None)) = "token"
  /\ run JS.toString plainStrip pipeTable quietOctokit
       (emptyTokenEnv (failingRun None)) (staleComments, [])
     = (Some "GITHUB_TOKEN not set.", (staleComments, [])).
Proof.
  split; [reflexivity|]. split; [reflexivity|].
  exact (run_without_token JS.toString plainStrip pipeTable quietOctokit
           (emptyTokenEnv (failingRun None)) (staleComments, [])
           (or_introl eq_refl)).
Defined.

Lemma run_passes_only_on_success_witness :
  fst (run JS.toString plainStrip pipeTable quietOctokit
         (sampleEnv pullContext false (passingRun None)) (staleComments, []))
  = None
  /\ exists results rest,
       results_document (sampleEnv pullContext false (passingRun None))
       = Ok results
       /\ success results = true
       /\ requestsOfRun JS.toString plainStrip pipeTable quietOctokit
            (sampleEnv pullContext false (passingRun None)) staleComments
          = ChecksCreate
              (getCheckPayload plainStrip
                 (sampleEnv pullContext false (passingRun None)) results
                 (process_cwd (sampleEnv pullContext false (passingRun None))
                  ++ sep (sampleEnv pullContext false (passingRun None))))
            :: rest.
Proof.
  split; [reflexivity|].
  exact (run_passes_only_on_success JS.toString plainStrip pipeTable quietOctokit
           (sampleEnv pullContext false (passingRun None)) staleComments eq_refl).
Defined.

Lemma failure_before_check_sends_nothing_witness :
  JS.truthy (tokenOf (badSwitchEnv (failingRun None))) = true
  /\ changes_only (badSwitchEnv (failingRun None))
     = Throw "Unexpected end of JSON input"
  /\ run JS.toString plainStrip pipeTable quietOctokit
       (badSwitchEnv (failingRun None)) (staleComments, [])
     = (Some "Unexpected end of JSON input", (staleComments, [])).
Proof.
  split; [reflexivity|]. split; [reflexivity|].
  exact (failure_before_check_sends_nothing JS.toString plainStrip pipeTable
           quietOctokit (badSwitchEnv (failingRun None)) staleComments
           "Unexpected end of JSON input" eq_refl
           (or_intror (or_introl (conj (ex_intro _ true eq_refl) eq_refl)))).
Defined.

Lemma rejected_check_stops_run_witness :
  checks_create rejectingChecks
    (getCheckPayload plainStrip
       (sampleEnv pullContext true (failingRun (Some sampleCoverage)))
       (failingRun (Some sampleCoverage)) "/repo/") staleComments
  = (Throw "Bad credentials", staleComments)
  /\ run JS.toString plainStrip pipeTable rejectingChecks
       (sampleEnv pullContext true (failingRun (Some sampleCoverage)))
       (staleComments, [])
     = (Some "Bad credentials",
        (staleComments,
         [ChecksCreate
            (getCheckPayload plainStrip
               (sampleEnv pullContext true (failingRun (Some sampleCoverage)))
               (failingRun (Some sampleCoverage)) "/repo/")])).
Proof.
  split; [reflexivity|].
  exact (rejected_check_stops_run JS.toString plainStrip pipeTable rejectingChecks
           (sampleEnv pullContext true (failingRun (Some sampleCoverage)))
           staleComments staleComments (failingRun (Some sampleCoverage))
           _ "Bad credentials" eq_refl eq_refl eq_refl eq_refl).
Defined.

Lemma no_comment_requests_when_disabled_witness :
  coverage_comment (sampleEnv pullContext false (failingRun (Some sampleCoverage)))
  = Ok false
  /\ Forall (fun q => isCommentRequest q = false)
       (requestsOfRun JS.toString plainStrip pipeTable quietOctokit
          (sampleEnv pullContext false (failingRun (Some sampleCoverage)))
          staleComments).
Proof.
  split; [reflexivity|].
  exact (no_comment_requests_when_disabled JS.toString plainStrip pipeTable
           quietOctokit
           (sampleEnv pullContext false (failingRun (Some sampleCoverage)))
           staleComments eq_refl).
Defined.

Lemma rejected_deletion_blocks_posting_witness :
  fst (deletePreviousComments rejectingDeletions pullContext
         (staleComments,
          [ChecksCreate
             (getCheckPayload plainStrip
                (sampleEnv pullContext true (failingRun (Some summarizedCoverage)))
                (failingRun (Some summarizedCoverage)) "/repo/")]))
  = Throw "Forbidden"
  /\ fst (run JS.toString plainStrip pipeTable rejectingDeletions
            (sampleEnv pullContext true (failingRun (Some summarizedCoverage)))
            (staleComments, []))
     = Some "Forbidden"
  /\ Forall (fun q => isPosting q = false)
       (requestsOfRun JS.toString plainStrip pipeTable rejectingDeletions
          (sampleEnv pullContext true (failingRun (Some summarizedCoverage)))
          staleComments).
Proof.
  split; [reflexivity|].
  pose proof (rejected_deletion_blocks_posting JS.toString plainStrip pipeTable
                rejectingDeletions
                (sampleEnv pullContext true (failingRun (Some summarizedCoverage)))
                staleComments staleComments (failingRun (Some summarizedCoverage))
                _ _ "Forbidden" _
                eq_refl eq_refl eq_refl eq_refl eq_refl eq_refl eq_refl eq_refl)
    as (Hrun & Hposting & _).
  unfold requestsOfRun. rewrite Hrun. split; [reflexivity | exact Hposting].
Defined.

Lemma posted_comment_is_recognised_witness :
  exists posted,
    In (IssuesCreateComment posted)
       (requestsOfRun JS.toString plainStrip pipeTable quietOctokit
          (sampleEnv pullContext true (failingRun (Some summarizedCoverage)))
          staleComments)
    /\ issue_number posted = 17
    /\ forall i,
         isPreviousComment {| id := i;
                              user_login := "github-actions[bot]";
                              comment_body := body posted |} = true.
Proof.
  exists (getCommentPayload pullContext
            (COVERAGE_HEADER
             ++ pipeTable (headerRow
                          :: map (rowOf JS.toString "/repo/")
                               (summarizableEntries summarizedCoverage))
                          coverageAlign)).
  assert (Hin : In (IssuesCreateComment
                      (getCommentPayload pullContext
                         (COVERAGE_HEADER
                          ++ pipeTable
                               (headerRow
                                :: map (rowOf JS.toString "/repo/")
                                     (summarizableEntries summarizedCoverage))
                               coverageAlign)))
                   (requestsOfRun JS.toString plainStrip pipeTable quietOctokit
                      (sampleEnv pullContext true
                         (failingRun (Some summarizedCoverage)))
                      staleComments)).
  { do 3 right. left. reflexivity. }
  split; [exact Hin|]. split; [reflexivity|].
  exact (proj2 (proj2 (proj2
           (posted_comment_is_recognised JS.toString plainStrip pipeTable
              quietOctokit
              (sampleEnv pullContext true (failingRun (Some summarizedCoverage)))
              staleComments _ Hin)))).
Defined.

Lemma accepted_run_requests_witness :
  requestsOfRun JS.toString plainStrip pipeTable quietOctokit
    (sampleEnv pullContext true (failingRun (Some summarizedCoverage))) staleComments
  = [ ChecksCreate
        (getCheckPayload plainStrip
           (sampleEnv pullContext true (failingRun (Some summarizedCoverage)))
           (failingRun (Some summarizedCoverage)) "/repo/");
      IssuesListComments sampleRepo 100 17;
      IssuesDeleteComment sampleRepo 3;
      IssuesCreateComment
        (getCommentPayload pullContext
           (COVERAGE_HEADER
            ++ pipeTable (headerRow
                          :: map (rowOf JS.toString "/repo/")
                               (summarizableEntries summarizedCoverage))
                         coverageAlign)) ].
Proof.
  unfold requestsOfRun.
  rewrite (accepted_run_requests JS.toString plainStrip pipeTable quietOctokit
             (sampleEnv pullContext true (failingRun (Some summarizedCoverage)))
             staleComments staleComments staleComments _
             (failingRun (Some summarizedCoverage)) _ _ staleComments _ _
             eq_refl eq_refl eq_refl eq_refl eq_refl eq_refl eq_refl eq_refl
             eq_refl eq_refl).
  reflexivity.
Defined.

Lemma jest_command_without_placeholder_witness :
  input_test_command (fixedCommandEnv (failingRun None)) = "npm test"
  /\ getJestCommand (fixedCommandEnv (failingRun None)) "/repo/jest.results.json"
     = Ok "npm test".
Proof.
  split; [reflexivity|].
  exact (jest_command_without_placeholder (fixedCommandEnv (failingRun None))
           "/repo/jest.results.json" true true eq_refl eq_refl
           (no_placeholder "npm test" eq_refl)).
Defined.

Lemma jest_command_splices_options_witness :
  input_test_command (changedOnlyEnv (failingRun None))
  = "npx jest " ++ "{{args}}" ++ " --ci"
  /\ getJestCommand (changedOnlyEnv (failingRun None)) "/repo/jest.results.json"
     = Ok ("npx jest --testLocationInResults --json --outputFile="
           ++ JS.DQUOTE ++ "/repo/jest.results.json" ++ JS.DQUOTE
           ++ " --coverage --changedSince=main --ci").
Proof.
  split; [reflexivity|].
  refine (jest_command_splices_options (changedOnlyEnv (failingRun None))
            "/repo/jest.results.json" "npx jest " " --ci" true true
            eq_refl eq_refl eq_refl eq_refl eq_refl _).
  intros pr H. injection H as <-. reflexivity.
Defined.

Lemma failure_text_blank_messages_witness :
  success silentRun = false
  /\ getOutputText plainStrip silentRun = Some ("```" ++ JS.LF ++ JS.LF ++ "```").
Proof.
  split; [reflexivity|].
  refine (failure_text_blank_messages plainStrip silentRun eq_refl _).
  repeat constructor.
Defined.

Lemma summary_determines_counts_witness :
  summary (output (getCheckPayload plainStrip
             (sampleEnv pushContext false (failingRun None))
             (failingRun None) "/repo/"))
  = summary (output (getCheckPayload plainStrip
               (sampleEnv pullContext true (failingRun (Some sampleCoverage)))
               (failingRun (Some sampleCoverage)) "/work/"))
  /\ numTotalTestSuites (failingRun None)
     = numTotalTestSuites (failingRun (Some sampleCoverage)).
Proof.
  split; [reflexivity|].
  exact (proj2 (proj2 (proj2 (proj2
           (summary_determines_counts plainStrip
              (sampleEnv pushContext false (failingRun None))
              (sampleEnv pullContext true (failingRun (Some sampleCoverage)))
              (failingRun None) (failingRun (Some sampleCoverage))
              "/repo/" "/work/" eq_refl)) eq_refl))).
Defined.

Lemma success_summary_suites_wording_witness :
  success (passingRun None) = true
  /\ ((exists front,
         summary (output (getCheckPayload plainStrip
                    (sampleEnv pullContext false (passingRun None))
                    (passingRun None) "/repo/"))
         = front ++ " suites.")
      <-> 1 < numPassedTestSuites (passingRun None)).
Proof.
  split; [reflexivity|].
  exact (proj1 (success_summary_suites_wording plainStrip
                  (sampleEnv pullContext false (passingRun None))
                  (passingRun None) "/repo/" eq_refl)).
Defined.

(** ** Coverage data that is refused *)

Section RefusedCoverage.

Context {Pct : Type} {P : Type}.
Variable pctToString : Pct -> string.
Variable strip : string -> string.
Variable table : list (list string) -> list string -> string.
Variable octokit : Octokit P.

Lemma createCoverageMap_first_refused (accepted rest : CoverageMapData Pct)
    (filename complaint : string) :
  allFileCoverage accepted ->
  createCoverageMap (accepted ++ (filename, NotFileCoverage complaint) :: rest)%list
  = Throw complaint.
Proof.
  induction 1 as [|[name entry] accepted Hentry _ IH]; [reflexivity|].
  destruct entry as [summary|other]; [|discriminate Hentry].
  simpl. now rewrite IH.
Qed.

(** X18.  When the coverage map of the results has an entry that is not
    file coverage data, the first such entry makes [getCoverageTable]
    throw the complaint of [createCoverageMap]; a run with the coverage
    comment switched on then reports that complaint after the check was
    accepted, and sends no request about comments. *)
Theorem refused_coverage_stops_after_check (env : Env Pct) (p p1 : P)
    (results : FormattedTestResults Pct) (cmd filename complaint : string)
    (accepted rest : CoverageMapData Pct) :
  JS.truthy (tokenOf env) = true ->
  getJestCommand env (RESULTS_FILE env) = Ok cmd ->
  results_document env = Ok results ->
  coverage_comment env = Ok true ->
  coverageMap results
  = Some (accepted ++ (filename, NotFileCoverage complaint) :: rest)%list ->
  allFileCoverage accepted ->
  checks_create octokit
    (getCheckPayload strip env results (process_cwd env ++ sep env)) p
    = (Ok tt, p1) ->
  getCoverageTable pctToString table results (process_cwd env ++ sep env)
  = Throw complaint
  /\ run pctToString strip table octokit env (p, [])
     = (Some complaint,
        (p1, [ChecksCreate
                (getCheckPayload strip env results
                   (process_cwd env ++ sep env))])).
Proof.
  intros Htoken Hcmd Hres Hcc Hmap Hall Hcheck.
  assert (Htable : getCoverageTable pctToString table results
                     (process_cwd env ++ sep env) = Throw complaint).
  { unfold getCoverageTable.
    now rewrite Hmap, (createCoverageMap_first_refused accepted rest filename
                         complaint Hall). }
  split; [exact Htable|].
  rewrite run_cases, Htoken, Hcmd, Hres. simpl negb. cbv iota zeta.
  now rewrite Hcheck, Hcc, Htable.
Qed.

End RefusedCoverage.

Lemma refused_coverage_stops_after_check_witness :
  sampleCoverage
  = ([("/repo/src/auth.ts", bundle 90 75 100 88)]
     ++ ("/repo/src/stub.ts",
         NotFileCoverage "Invalid file coverage object, missing keys, found:")
        :: [("/repo/src/cart.ts", bundle 50 0 40 50)])%list
  /\ run JS.toString plainStrip pipeTable quietOctokit
       (sampleEnv pullContext true (failingRun (Some sampleCoverage)))
       (staleComments, [])
     = (Some "Invalid file coverage object, missing keys, found:",
        (staleComments,
         [ChecksCreate
            (getCheckPayload plainStrip
               (sampleEnv pullContext true (failingRun (Some sampleCoverage)))
               (failingRun (Some sampleCoverage)) "/repo/")])).
Proof.
  split; [reflexivity|].
  refine (proj2 (refused_coverage_stops_after_check JS.toString plainStrip
                   pipeTable quietOctokit
                   (sampleEnv pullContext true (failingRun (Some sampleCoverage)))
                   staleComments staleComments (failingRun (Some sampleCoverage))
                   _ "/repo/src/stub.ts"
                   "Invalid file coverage object, missing keys, found:"
                   [("/repo/src/auth.ts", bundle 90 75 100 88)]
                   [("/repo/src/cart.ts", bundle 50 0 40 50)]
                   eq_refl eq_refl eq_refl eq_refl eq_refl _ eq_refl)).
  repeat constructor.
Defined.
